(** * pystockwatch: percentage change, volume change and the profit table

    A shallow embedding of [src/pystockwatch/pystockwatch.py].

    - Prices are IEEE 754 binary64 numbers (pandas [float64]): Rocq's
      primitive [float], whose operations round to nearest even as numpy's.
    - Volumes are [int64] cells, modelled as [Z] with the wrap-around of a
      subtraction written out.
    - The market-data provider (yfinance / pandas_datareader) is a
      collaborator: a record of functions that the module calls, which
      answers as a function of the request (the same request gets the same
      answer during one call of the module).  Every call that reaches the
      provider is recorded in a trace of events.
    - A Python exception is a value of [exn]; a function of the module is a
      computation in the monad [M], which carries the trace and either a
      result or the exception that ended the call. *)

From Stdlib Require Import ZArith String Ascii Floats Lia Bool.
From stdpp Require Import base list.

Local Open Scope string_scope.
Local Open Scope Z_scope.
Local Open Scope list_scope.

(** ** Python values, exceptions, events *)

(** The arguments a caller can pass where a ticker is expected. *)
Inductive pyval :=
| PyStr (s : string)
| PyInt (n : Z)
| PyNone.

(** [type(v) == str] *)
Definition is_str (v : pyval) : bool :=
  match v with PyStr _ => true | _ => false end.

(** An exception that comes out of a collaborator (yfinance,
    pandas_datareader): the names of the classes it is an instance of, and
    its message. *)
Record foreign := Raised {
  classes : list string;
  message : string
}.

(** Exceptions.  The first five are raised by this module or by the Python
    runtime under it; [Foreign] is one that a collaborator raised and that
    passes through the module. *)
Inductive exn :=
| NameError (msg : string)
| ValueError (msg : string)
| TypeError (msg : string)
| IndexError (msg : string)
| UnboundLocalError (msg : string)
| Foreign (f : foreign).

Definition string_in (s : string) (l : list string) : bool :=
  existsb (String.eqb s) l.

(** [isinstance(e, cls)] for the classes the module names in its [except]
    clauses.  [UnboundLocalError] is a subclass of [NameError]. *)
Definition isinstance (e : exn) (cls : string) : bool :=
  match e with
  | NameError _ => String.eqb cls "NameError"
  | ValueError _ => String.eqb cls "ValueError"
  | TypeError _ => String.eqb cls "TypeError"
  | IndexError _ => String.eqb cls "IndexError"
  | UnboundLocalError _ =>
      String.eqb cls "UnboundLocalError" || String.eqb cls "NameError"
  | Foreign f => string_in cls (classes f)
  end.

(** [str(err)] as [print(err)] shows it. *)
Definition exn_msg (e : exn) : string :=
  match e with
  | NameError m | ValueError m | TypeError m | IndexError m
  | UnboundLocalError m => m
  | Foreign f => message f
  end.

(** What a call leaves behind outside its return value: the switch of
    pandas_datareader to yfinance ([yf.pdr_override()]), the requests to the
    provider (the quote lookup behind [ticker.info], [yf.download],
    [pdr.get_data_yahoo]) and the lines printed. *)
Inductive event :=
| EvPdrOverride
| EvInfo (ticker : pyval)
| EvDownload (ticker : pyval) (start_date end_date : string)
| EvGetDataYahoo (ticker : pyval) (start_date end_date : string)
| EvPrint (msg : string).

(** A request for the price and volume history. *)
Definition is_fetch (e : event) : bool :=
  match e with
  | EvDownload _ _ _ | EvGetDataYahoo _ _ _ => true
  | _ => false
  end.

(** A request to the provider: a quote lookup or a history fetch. *)
Definition is_provider_call (e : event) : bool :=
  match e with
  | EvInfo _ | EvDownload _ _ _ | EvGetDataYahoo _ _ _ => true
  | _ => false
  end.

(** ** The monad of the module's functions *)

Definition result (A : Type) : Type := (exn + A)%type.

Definition M (A : Type) : Type := (list event * result A)%type.

Definition trace {A} (m : M A) : list event := fst m.
Definition outcome {A} (m : M A) : result A := snd m.

#[global] Instance M_ret : MRet M := fun A a => ([], inr a).

#[global] Instance M_bind : MBind M := fun A B f m =>
  match m with
  | (t, inl e) => (t, inl e)
  | (t, inr a) => let '(t', r) := f a in (t ++ t', r)
  end.

#[global] Instance M_fmap : FMap M := fun A B f m =>
  match m with
  | (t, inl e) => (t, inl e)
  | (t, inr a) => (t, inr (f a))
  end.

Definition raise {A} (e : exn) : M A := ([], inl e).

Definition emit (ev : event) : M unit := ([ev], inr tt).

(** What a collaborator answers: a value, or an exception of its own. *)
Definition answer (A : Type) : Type := (foreign + A)%type.

Definition propagate {A} (r : answer A) : result A :=
  match r with
  | inl f => inl (Foreign f)
  | inr a => inr a
  end.

(** The answer of a collaborator, after the event of calling it. *)
Definition call {A} (ev : event) (r : answer A) : M A := ([ev], propagate r).

(** The answer of a collaborator that sends no request. *)
Definition lift {A} (r : answer A) : M A := ([], propagate r).

(** [try: body except <classes> as err: handler err] *)
Definition try_except {A} (body : M A) (classes : list string)
    (handler : exn -> M A) : M A :=
  match body with
  | (t, inl e) =>
      if existsb (isinstance e) classes
      then let '(t', r) := handler e in (t ++ t', r)
      else (t, inl e)
  | (t, inr a) => (t, inr a)
  end.

(** ** Dates and [strptime(s, "%Y-%m-%d")] *)

Record date := mkdate { year : Z; month : Z; day : Z }.

Definition date_eqb (a b : date) : bool :=
  (year a =? year b) && (month a =? month b) && (day a =? day b).

(** [a < b] on naive datetimes at midnight. *)
Definition date_ltb (a b : date) : bool :=
  (year a <? year b)
  || ((year a =? year b)
      && ((month a <? month b)
          || ((month a =? month b) && (day a <? day b)))).

Definition is_leap (y : Z) : bool :=
  (y mod 4 =? 0) && (negb (y mod 100 =? 0) || (y mod 400 =? 0)).

Definition days_in_month (y m : Z) : Z :=
  if m =? 2 then (if is_leap y then 29 else 28)
  else if (m =? 4) || (m =? 6) || (m =? 9) || (m =? 11) then 30
  else 31.

(** Date strings are byte strings here and a digit is an ASCII digit. *)
Definition digit (c : ascii) : option Z :=
  let n := Z.of_N (N_of_ascii c) in
  if (48 <=? n) && (n <=? 57) then Some (n - 48) else None.

Definition digit_in (lo hi : Z) (c : ascii) : option Z :=
  match digit c with
  | Some d => if (lo <=? d) && (d <=? hi) then Some d else None
  | None => None
  end.

(** [%Y]: the regular expression [\d\d\d\d]. *)
Definition parse_Y (s : string) : option (Z * string) :=
  match s with
  | String a (String b (String c (String d rest))) =>
      match digit a, digit b, digit c, digit d with
      | Some a, Some b, Some c, Some d =>
          Some (1000 * a + 100 * b + 10 * c + d, rest)
      | _, _, _, _ => None
      end
  | _ => None
  end.

(** [%m]: the alternatives [1[0-2]|0[1-9]|[1-9]], tried in this order. *)
Definition parse_m (s : string) : option (Z * string) :=
  match s with
  | String a rest =>
      let two :=
        match rest with
        | String b rest' =>
            match digit_in 1 1 a, digit_in 0 2 b with
            | Some _, Some b => Some (10 + b, rest')
            | _, _ =>
                match digit_in 0 0 a, digit_in 1 9 b with
                | Some _, Some b => Some (b, rest')
                | _, _ => None
                end
            end
        | EmptyString => None
        end in
      match two with
      | Some r => Some r
      | None =>
          match digit_in 1 9 a with
          | Some a => Some (a, rest)
          | None => None
          end
      end
  | EmptyString => None
  end.

(** [%d]: the alternatives [3[01]|[12]\d|0[1-9]|[1-9]| [1-9]]. *)
Definition parse_d (s : string) : option (Z * string) :=
  match s with
  | String a rest =>
      let two :=
        match rest with
        | String b rest' =>
            match digit_in 3 3 a, digit_in 0 1 b with
            | Some _, Some b => Some (30 + b, rest')
            | _, _ =>
                match digit_in 1 2 a, digit b with
                | Some a, Some b => Some (10 * a + b, rest')
                | _, _ =>
                    match digit_in 0 0 a, digit_in 1 9 b with
                    | Some _, Some b => Some (b, rest')
                    | _, _ => None
                    end
                end
            end
        | EmptyString => None
        end in
      match two with
      | Some r => Some r
      | None =>
          match digit_in 1 9 a with
          | Some a => Some (a, rest)
          | None =>
              match rest with
              | String b rest' =>
                  if Ascii.eqb a " "%char then
                    match digit_in 1 9 b with
                    | Some b => Some (b, rest')
                    | None => None
                    end
                  else None
              | EmptyString => None
              end
          end
      end
  | EmptyString => None
  end.

Definition expect_dash (s : string) : option string :=
  match s with
  | String c rest => if Ascii.eqb c "-"%char then Some rest else None
  | EmptyString => None
  end.

(** [datetime.datetime.strptime(s, "%Y-%m-%d")]; [None] is its
    [ValueError] (no match, unconverted data left over, or a day or a year
    that the calendar does not have). *)
Definition strptime (s : string) : option date :=
  match parse_Y s with
  | Some (y, s1) =>
      match expect_dash s1 with
      | Some s2 =>
          match parse_m s2 with
          | Some (m, s3) =>
              match expect_dash s3 with
              | Some s4 =>
                  match parse_d s4 with
                  | Some (d, EmptyString) =>
                      if (1 <=? y) && (d <=? days_in_month y m)
                      then Some (mkdate y m d) else None
                  | _ => None
                  end
              | None => None
              end
          | None => None
          end
      | None => None
      end
  | None => None
  end.

(** ** Tables *)

(** One row of values, a cell per ticker column. *)
Abbreviation row := (list float).

(** A row of the table that [yf.download] returns: the trading day and the
    six column groups, each with a cell per requested ticker. *)
Record raw_row := RawRow {
  Date : date;
  Open : row;
  High : row;
  Low : row;
  Close : row;
  Adj_Close : row;
  Volume : list Z
}.

Abbreviation raw_frame := (list raw_row).

(** A table indexed by date whose value columns share one label (the label
    of the column group: for one ticker, the label of the only column). *)
Record frame := Frame {
  label : string;
  rows : list (date * row)
}.

(** ** The market-data provider *)

Record provider := Provider {
  (** [yf.Ticker(t)]: builds the handle, no request is sent. *)
  Ticker : pyval -> answer unit;
  (** [yf.Ticker(t).info["regularMarketPrice"]] *)
  regularMarketPrice : pyval -> answer (option float);
  (** [yf.download(t, start=s, end=e)] *)
  download : pyval -> string -> string -> answer raw_frame;
  (** [pdr.get_data_yahoo(t, start=s, end=e)] *)
  get_data_yahoo : pyval -> string -> string -> answer raw_frame
}.

(** ** Messages of the module *)

Definition msg_ticker := "You have entered an invalid stock ticker! Try again.".
Definition msg_bench_ticker :=
  "You have entered an invalid benchmark ticker! Try again.".
Definition msg_start :=
  "You have entered an invalid start date! Try date formatted in YYYY-MM-DD.".
Definition msg_end :=
  "You have entered an invalid end date! Try date formatted in YYYY-MM-DD.".
Definition msg_range :=
  "You have entered an end date which is earlier than the start date! Try again.".
Definition msg_stock_type := "stock_ticker should be of type string.".
Definition msg_bench_type := "Bench Mark ticker should be of type string.".
Definition msg_vstart := "You have entered an invalid start date! Try again.".
Definition msg_vend := "You have entered an invalid end date! Try again.".
Definition msg_indicator := "Incorrect Volume Change indicator".

(** The errors of the specification, as the exceptions the module raises. *)
Definition InvalidTickerError : exn := NameError msg_ticker.
Definition InvalidDateRangeError : exn := ValueError msg_range.

(** ** Validation steps shared by the functions *)

(** [if ticker.info["regularMarketPrice"] == None: raise NameError(msg)] *)
Definition assert_ticker (p : provider) (t : pyval) (msg : string) : M unit :=
  price ← call (EvInfo t) (regularMarketPrice p t);
  match price with
  | None => raise (NameError msg)
  | Some _ => mret tt
  end.

(** [try: strptime(s, format) except ValueError: raise ValueError(msg)] *)
Definition assert_date (s : string) (msg : string) : M unit :=
  try_except
    (match strptime s with
     | Some _ => mret tt
     | None => raise (ValueError "time data does not match format")
     end)
    ["ValueError"]
    (fun _ => raise (ValueError msg)).

(** [if strptime(end_date) < strptime(start_date): raise ValueError(msg)] *)
Definition assert_range (start_date end_date : string) : M unit :=
  match strptime end_date, strptime start_date with
  | Some e, Some s =>
      if date_ltb e s then raise (ValueError msg_range) else mret tt
  | _, _ => raise (ValueError "time data does not match format")
  end.

(** ** [percent_change] *)

Definition series_sub (a b : row) : row := zip_with PrimFloat.sub a b.
Definition series_div (a b : row) : row := zip_with PrimFloat.div a b.
Definition series_mul (a : row) (k : float) : row :=
  (fun x => PrimFloat.mul x k) <$> a.

(** [(r - r0) / r0 * 100] on two rows with the same columns. *)
Definition rebase_row (r r0 : row) : row :=
  series_mul (series_div (series_sub r r0) r0) 100%float.

Definition msg_iloc := "single positional indexer is out-of-bounds".

(** [data.iloc[i, :]] *)
Definition iloc (data : list (date * row)) (i : nat) : M row :=
  match data !! i with
  | Some (_, r) => mret r
  | None => raise (IndexError msg_iloc)
  end.

(** [data.iloc[i, :] = r] *)
Definition iloc_set (data : list (date * row)) (i : nat) (r : row)
    : M (list (date * row)) :=
  match data !! i with
  | Some (d, _) => mret (<[i := (d, r)]> data)
  | None => raise (IndexError "iloc cannot enlarge its target object")
  end.

(** The body of the loop, for the indices of [range(1, len(data))] in turn:
    the table is updated in place and row 0 is read from it each time. *)
Fixpoint rebase_loop (indices : list nat) (data : list (date * row))
    : M (list (date * row)) :=
  match indices with
  | [] => mret data
  | i :: rest =>
      ri ← iloc data i;
      r0 ← iloc data 0;
      data' ← iloc_set data i (rebase_row ri r0);
      rebase_loop rest data'
  end.

(** Lines 80 to 83. *)
Definition rebase (data : list (date * row)) : M (list (date * row)) :=
  data1 ← rebase_loop (seq 1 (length data - 1)) data;
  r0 ← iloc data1 0;
  iloc_set data1 0 (rebase_row r0 r0).

(** [data.drop(columns={'Open','High','Low','Adj Close','Volume'})] *)
Definition drop_columns (raw : raw_frame) : frame :=
  Frame "Close" ((fun r => (Date r, Close r)) <$> raw).

(** [data.rename(columns={old: new})] *)
Definition rename_column (old new : string) (f : frame) : frame :=
  Frame (if String.eqb (label f) old then new else label f) (rows f).

Definition pct_label := "Price Change Percentage(%)".

Definition percent_change (p : provider) (stock_ticker : pyval)
    (start_date end_date : string) : M frame :=
  _ ← lift (Ticker p stock_ticker);
  _ ← assert_ticker p stock_ticker msg_ticker;
  _ ← assert_date start_date msg_start;
  _ ← assert_date end_date msg_end;
  _ ← assert_range start_date end_date;
  raw ← call (EvDownload stock_ticker start_date end_date)
             (download p stock_ticker start_date end_date);
  let data := drop_columns raw in
  values ← rebase (rows data);
  mret (rename_column "Close" pct_label (Frame (label data) values)).

(** ** [volume_change] *)

Record volume_row := VolumeRow {
  vDate : date;
  vVolume : Z;
  Volume_Change : string
}.

(** An [int64] result. *)
Definition int64_wrap (z : Z) : Z := (z + 2 ^ 63) mod 2 ^ 64 - 2 ^ 63.

(** [raw['Volume'].reset_index()] followed by [df['Volume']]: the table of
    one ticker has one volume column; with another number of columns no
    column is labelled Volume and the lookup raises [KeyError]. *)
Definition volume_cell (r : raw_row) : option (date * Z) :=
  match Volume r with
  | [v] => Some (Date r, v)
  | _ => None
  end.

Definition volume_column (raw : raw_frame) : M (list (date * Z)) :=
  match mapM volume_cell raw with
  | Some df => mret df
  | None =>
      raise (Foreign (Raised ["KeyError"; "LookupError"; "Exception"] "'Volume'"))
  end.

(** [Series.diff()]: no value ([NaN], here [None]) in the first place, then
    each cell minus the one before it.  The subtraction is done on [int64]
    cells and the result stored as [float64], which keeps its sign. *)
Definition diff (v : list Z) : list (option Z) :=
  match v with
  | [] => []
  | _ :: later => None :: zip_with (fun prev cur => Some (int64_wrap (cur - prev))) v later
  end.

(** [s > 0] and [s < 0] on a series with missing values. *)
Definition gt0 (s : list (option Z)) : list bool :=
  (fun c => match c with Some z => 0 <? z | None => false end) <$> s.
Definition lt0 (s : list (option Z)) : list bool :=
  (fun c => match c with Some z => z <? 0 | None => false end) <$> s.

(** [np.select([c1, c2], [v1, v2], default=np.nan)]: with string choices
    the result is an array of strings and the default becomes ["nan"]. *)
Definition np_select (c1 c2 : list bool) (v1 v2 : string) : list string :=
  zip_with (fun b1 b2 : bool => if b1 then v1 else if b2 then v2 else "nan") c1 c2.

(** Lines 247 to 249. *)
Fixpoint check_indicators (l : list string) : M unit :=
  match l with
  | [] => mret tt
  | indicator :: rest =>
      if negb (String.eqb indicator "Decrease")
         && negb (String.eqb indicator "Increase")
         && negb (String.eqb indicator "nan")
      then raise (ValueError msg_indicator)
      else check_indicators rest
  end.

Definition classify (volumes : list Z) : list string :=
  let Volume_dif := diff volumes in
  np_select (gt0 Volume_dif) (lt0 Volume_dif) "Increase" "Decrease".

Definition volume_change (p : provider) (stock_ticker : pyval)
    (start_date end_date : string) : M (list volume_row) :=
  _ ← emit EvPdrOverride;
  _ ← lift (Ticker p stock_ticker);
  _ ← assert_ticker p stock_ticker msg_ticker;
  _ ← assert_date start_date msg_vstart;
  _ ← assert_date end_date msg_vend;
  raw ← call (EvGetDataYahoo stock_ticker start_date end_date)
             (get_data_yahoo p stock_ticker start_date end_date);
  df ← volume_column raw;
  let change := classify (snd <$> df) in
  _ ← check_indicators change;
  mret (zip_with (fun dv c => VolumeRow (fst dv) (snd dv) c) df change).

(** ** [profit_viz] *)

(** The merged table: the date, the cells of the left table and the cells
    of the right table, under the labels of the two column groups. *)
Record table := Table {
  left_label : string;
  right_label : string;
  trows : list (date * row * row)
}.

(** [pd.merge(l, r, on="Date")]: the default join is the inner join, and
    value columns with the same label get the suffixes [_x] and [_y].  The
    rows come in the order pandas gives for tables without repeated dates. *)
Definition merge_rows (l r : list (date * row)) : list (date * row * row) :=
  l ≫= (fun lr =>
    (fun rr => (fst lr, snd lr, snd rr))
      <$> filter (fun rr => date_eqb (fst lr) (fst rr) = true) r).

Definition merge (l r : frame) : table :=
  if String.eqb (label l) (label r)
  then Table (String.append (label l) "_x") (String.append (label r) "_y")
             (merge_rows (rows l) (rows r))
  else Table (label l) (label r) (merge_rows (rows l) (rows r)).

Definition stock_column := "Profit Percent Stock".
Definition bench_column := "Profit Percent Benchmark".

(** The dictionary of [profit_df.rename(..., axis=1)], on one label. *)
Definition rename_profit (l : string) : string :=
  if String.eqb l (String.append pct_label "_x") then stock_column
  else if String.eqb l (String.append pct_label "_y") then bench_column
  else l.

Definition rename_table (t : table) : table :=
  Table (rename_profit (left_label t)) (rename_profit (right_label t)) (trows t).

(** The chart object: its data and its encoding. *)
Record chart := Chart {
  chart_data : table;
  mark : string;
  fold : list string;
  fold_as : list string;
  enc_x : string;
  enc_y : string;
  color_field : string;
  color_domain : list pyval;
  color_range : list string
}.

Definition msg_unbound :=
  "local variable 'profit_df' referenced before assignment".

(** Lines 120 to 156: the checks, in the order of the source. *)
Definition profit_checks (p : provider) (stock_ticker : pyval)
    (start_date end_date : string) (benchmark_ticker : pyval) : M unit :=
  _ ← assert_ticker p stock_ticker msg_ticker;
  _ ← (if is_str stock_ticker then mret tt
       else raise (TypeError msg_stock_type));
  _ ← assert_ticker p benchmark_ticker msg_bench_ticker;
  _ ← (if is_str benchmark_ticker then mret tt
       else raise (TypeError msg_bench_type));
  _ ← assert_date start_date msg_start;
  _ ← assert_date end_date msg_end;
  assert_range start_date end_date.

(** [except (...) as err: print(err); raise] *)
Definition print_and_raise {A} (err : exn) : M A :=
  _ ← emit (EvPrint (exn_msg err));
  raise err.

(** Lines 159 to 163. *)
Definition profit_table (p : provider) (stock_ticker : pyval)
    (start_date end_date : string) (benchmark_ticker : pyval) : M table :=
  stock_profit ← percent_change p stock_ticker start_date end_date;
  benchmark_profit ← percent_change p benchmark_ticker start_date end_date;
  mret (rename_table (merge stock_profit benchmark_profit)).

Definition profit_viz (p : provider) (stock_ticker : pyval)
    (start_date end_date : string) (benchmark_ticker : pyval) : M chart :=
  _ ← lift (Ticker p stock_ticker);
  _ ← lift (Ticker p benchmark_ticker);
  _ ← try_except
        (profit_checks p stock_ticker start_date end_date benchmark_ticker)
        ["TypeError"; "ValueError"; "NameError"]
        print_and_raise;
  profit_df ← try_except
        ((Some : table -> option table) <$> profit_table p stock_ticker start_date end_date
                               benchmark_ticker)
        ["AttributeError"]
        (fun _ => mret (None : option table));
  match profit_df with
  | None => raise (UnboundLocalError msg_unbound)
  | Some df =>
      mret (Chart df "line" [stock_column; bench_column]
                  ["company"; "Profit Percent"]
                  "Date:T" "Profit Percent:Q" "company:N"
                  [stock_ticker; benchmark_ticker] ["red"; "blue"])
  end.

(** A provider to run the functions on: it knows AAPL and SPY. *)
Module Sample.

Definition d (y m dd : Z) : date := mkdate y m dd.

Definition bar (dt : date) (close : float) (vol : Z) : raw_row :=
  RawRow dt [close] [close] [close] [close] [close] [vol].

Definition d1 := d 2020 1 2.
Definition d2 := d 2020 1 3.
Definition d3 := d 2020 1 6.
Definition d4 := d 2020 1 7.

Definition aapl : raw_frame :=
  [ bar d1 80%float 1000;
    bar d2 100%float 2000;
    bar d3 60%float 2000 ].

Definition spy : raw_frame :=
  [ bar d2 200%float 500;
    bar d3 210%float 400;
    bar d4 190%float 450 ].

(** A listed instrument whose first close in the range is zero. *)
Definition penny : raw_frame :=
  [ bar d1 0%float 10;
    bar d2 2%float 30 ].

(** NEWCO is listed but has no trading day in the range. *)
Definition history (t : pyval) : answer raw_frame :=
  match t with
  | PyStr "AAPL" => inr aapl
  | PyStr "SPY" => inr spy
  | PyStr "PENNY" => inr penny
  | _ => inr []
  end.

Definition yahoo : provider := {|
  Ticker t :=
    if is_str t then inr tt
    else inl (Raised ["AttributeError"; "Exception"]
                     "object has no attribute 'upper'");
  regularMarketPrice t :=
    match t with
    | PyStr "AAPL" => inr (Some 90%float)
    | PyStr "SPY" => inr (Some 190%float)
    | PyStr "PENNY" => inr (Some 2%float)
    | PyStr "NEWCO" => inr (Some 10%float)
    | _ => inr None
    end;
  download t _ _ := history t;
  get_data_yahoo t _ _ := history t
|}.

(** The same data behind a client whose handle constructor takes any
    value; a value that is no symbol has no quote. *)
Definition lenient : provider := {|
  Ticker _ := inr tt;
  regularMarketPrice := regularMarketPrice yahoo;
  download := download yahoo;
  get_data_yahoo := get_data_yahoo yahoo
|}.

(** The series of AAPL, on the days d1, d2, d3, and of SPY, on the days
    d2, d3, d4. *)
Definition stock : frame :=
  Frame pct_label [(d1, [0%float]); (d2, [25%float]); (d3, [(-25)%float])].
Definition benchmark : frame :=
  Frame pct_label [(d2, [0%float]); (d3, [5%float]); (d4, [(-5)%float])].

End Sample.

(** ** [volume_viz] *)

(** A bar trace of the figure: [go.Bar(x=..., y=..., base=..., marker_color=...,
    name=...)]. *)
Record bar := Bar {
  bar_x : list date;
  bar_y : list Z;
  bar_base : Z;
  marker_color : string;
  bar_name : string
}.

(** A figure is the traces added to it, in the order of [add_trace]. *)
Abbreviation figure := (list bar).

Definition msg_unbound_vdf :=
  "local variable 'vdf' referenced before assignment".

(** [vdf.loc[vdf['Volume_Change'] == lbl]] *)
Definition loc_change (vdf : list volume_row) (lbl : string)
    : list volume_row :=
  filter (fun o => String.eqb (Volume_Change o) lbl = true) vdf.

(** [fig.show()] puts the figure on the display and the function returns
    nothing; the value here is the figure that is shown. *)
Definition volume_viz (p : provider) (stock_ticker : pyval)
    (start_date end_date : string) : M figure :=
  vdf ← try_except
        ((Some : list volume_row -> option (list volume_row))
           <$> volume_change p stock_ticker start_date end_date)
        ["AttributeError"]
        (fun _ => mret (None : option (list volume_row)));
  match vdf with
  | None => raise (UnboundLocalError msg_unbound_vdf)
  | Some vdf =>
      let vdf_increase := loc_change vdf "Increase" in
      let vdf_decrease := loc_change vdf "Decrease" in
      let fig : figure := [] in
      let fig :=
        fig ++ [Bar (vDate <$> vdf_increase) (vVolume <$> vdf_increase) 0
                    "green" "Volume Increase"] in
      let fig :=
        fig ++ [Bar (vDate <$> vdf_decrease) (vVolume <$> vdf_decrease) 0
                    "red" "Volume Decrease"] in
      mret fig
  end.

(** More data to run the functions on. *)
Module Fixtures.
Import Sample.

(** The history of AAPL with other opening prices, adjusted closes and
    volumes, and the closes of [Sample.aapl]. *)
Definition aapl_other : raw_frame :=
  [ RawRow d1 [79%float] [81%float] [78%float] [80%float] [40%float] [7];
    RawRow d2 [99%float] [101%float] [98%float] [100%float] [50%float] [8];
    RawRow d3 [59%float] [61%float] [58%float] [60%float] [30%float] [9] ].

Definition other : provider := {|
  Ticker := Ticker yahoo;
  regularMarketPrice := regularMarketPrice yahoo;
  download t s e :=
    match t with
    | PyStr "AAPL" => inr aapl_other
    | _ => download yahoo t s e
    end;
  get_data_yahoo := get_data_yahoo yahoo
|}.

(** A listed instrument with a missing first close. *)
Definition gap : raw_frame :=
  [ bar d1 nan 10;
    bar d2 2%float 30 ].

(** A client whose fetch of SPY raises an [AttributeError], and whose GAP
    has the history [gap]. *)
Definition flaky : provider := {|
  Ticker := Ticker yahoo;
  regularMarketPrice t :=
    match t with
    | PyStr "GAP" => inr (Some 2%float)
    | _ => regularMarketPrice yahoo t
    end;
  download t s e :=
    match t with
    | PyStr "SPY" =>
        inl (Raised ["AttributeError"; "Exception"]
                    "'NoneType' object has no attribute 'index'")
    | PyStr "GAP" => inr gap
    | _ => download yahoo t s e
    end;
  get_data_yahoo := get_data_yahoo yahoo
|}.

End Fixtures.

(** * The vocabulary of the properties *)

(** What lines 80 to 83 leave in the table. *)
Definition rebased (data : list (date * row)) : list (date * row) :=
  match data with
  | [] => []
  | (d0, r0) :: later =>
      (d0, rebase_row r0 r0)
        :: ((fun dr => (fst dr, rebase_row (snd dr) r0)) <$> later)
  end.

(** A ticker that the client accepts and that has a current price. *)
Definition valid_ticker (p : provider) (t : pyval) : Prop :=
  Ticker p t = inr tt /\ exists price, regularMarketPrice p t = inr (Some price).

(** Entry 0 of a series is zero in every column. *)
Definition first_entry_zero (f : frame) : Prop :=
  forall d vals x,
    rows f !! 0%nat = Some (d, vals) -> x ∈ vals -> is_zero x = true.

(** The three labels: Increase, Decrease and Undefined, which the column
    holds as the string nan. *)
Definition allowed_label (l : string) : Prop :=
  l = "Increase" \/ l = "Decrease" \/ l = "nan".

(** The label of one cell of the difference column. *)
Definition label_of (c : option Z) : string :=
  match c with
  | Some z => if 0 <? z then "Increase" else if z <? 0 then "Decrease" else "nan"
  | None => "nan"
  end.

(** The steps of [volume_change] after the fetch. *)
Definition volume_rows (df : list (date * Z)) : list volume_row :=
  zip_with (fun dv c => VolumeRow (fst dv) (snd dv) c) df (classify (snd <$> df)).

(** A volume cell of the provider: a number of shares in an [int64]. *)
Definition volume_cells (r : raw_row) : Prop :=
  exists v, Volume r = [v] /\ 0 <= v < 2 ^ 63.

(** The dates of a series and of a merged table. *)
Definition frame_dates (f : frame) : list date := fst <$> rows f.
Definition table_dates (t : table) : list date :=
  (fun r => fst (fst r)) <$> trows t.

(** The chart of two series. *)
Definition chart_of (st bt : pyval) (S B : frame) : chart :=
  Chart (rename_table (merge S B)) "line" [stock_column; bench_column]
        ["company"; "Profit Percent"] "Date:T" "Profit Percent:Q" "company:N"
        [st; bt] ["red"; "blue"].

(** The three functions that validate their arguments. *)
Inductive operation := PercentChange | VolumeChange | ProfitViz.

(** A call of one of the three functions, its return value forgotten; the
    benchmark ticker is an argument of [profit_viz] only. *)
Definition run (op : operation) (p : provider) (ticker : pyval)
    (start_date end_date : string) (benchmark : pyval) : M unit :=
  match op with
  | PercentChange =>
      (fun _ => tt) <$> percent_change p ticker start_date end_date
  | VolumeChange =>
      (fun _ => tt) <$> volume_change p ticker start_date end_date
  | ProfitViz =>
      (fun _ => tt) <$> profit_viz p ticker start_date end_date benchmark
  end.

(** The lookup returns a current price. *)
Definition resolves (p : provider) (t : pyval) : bool :=
  match regularMarketPrice p t with
  | inr (Some _) => true
  | _ => false
  end.

(** Both dates parse. *)
Definition dates_parse (s e : string) : bool :=
  match strptime s, strptime e with
  | Some _, Some _ => true
  | _, _ => false
  end.

(** Both dates parse and the end date does not precede the start date. *)
Definition range_ok (s e : string) : bool :=
  match strptime s, strptime e with
  | Some ds, Some de => negb (date_ltb de ds)
  | _, _ => false
  end.

(** The conditions that each function checks before it fetches. *)
Definition passes_validation (op : operation) (p : provider) (t : pyval)
    (s e : string) (b : pyval) : bool :=
  match op with
  | PercentChange => resolves p t && range_ok s e
  | VolumeChange => resolves p t && dates_parse s e
  | ProfitViz =>
      resolves p t && is_str t && resolves p b && is_str b && range_ok s e
  end.

(** No history was fetched; no request at all went to the provider. *)
Definition no_fetch (t : list event) : bool :=
  forallb (fun ev => negb (is_fetch ev)) t.

Definition no_provider_call (t : list event) : bool :=
  forallb (fun ev => negb (is_provider_call ev)) t.

(** The client builds the handle and answers the lookup of the ticker
    (with a price or with none). *)
Definition answers (p : provider) (t : pyval) : bool :=
  match Ticker p t, regularMarketPrice p t with
  | inr _, inr _ => true
  | _, _ => false
  end.

(** Both lookups are answered. *)
Definition lookups_answered (p : provider) (st bt : pyval) : bool :=
  match regularMarketPrice p st, regularMarketPrice p bt with
  | inr _, inr _ => true
  | _, _ => false
  end.

Definition client_answers (op : operation) (p : provider) (t b : pyval)
    : bool :=
  match op with
  | ProfitViz => answers p t && answers p b
  | _ => answers p t
  end.

(** The exceptions that the validation of the module raises. *)
Definition is_validation_error (err : exn) : bool :=
  match err with
  | NameError _ | ValueError _ | TypeError _ => true
  | _ => false
  end.

(** The call ends with an exception that satisfies [P] and has fetched
    nothing. *)
Definition rejected {A} (P : exn -> Prop) (m : M A) : Prop :=
  exists err, outcome m = inl err /\ no_fetch (trace m) = true /\ P err.

(** The exception is one of the validation when [answered] holds. *)
Definition validation_if (answered : bool) (err : exn) : Prop :=
  answered = true -> is_validation_error err = true.

(** Closes [rejected P m] once [m] has computed to a trace and an exception
    and [P] to a condition on booleans. *)
Ltac reject_now :=
  eexists; split; [reflexivity|]; split; [reflexivity|];
  unfold validation_if; cbn; intros; first [reflexivity | discriminate].

(** The figure that [volume_viz] builds from a labelled table. *)
Definition figure_of (vdf : list volume_row) : figure :=
  [Bar (vDate <$> loc_change vdf "Increase")
       (vVolume <$> loc_change vdf "Increase") 0 "green" "Volume Increase";
   Bar (vDate <$> loc_change vdf "Decrease")
       (vVolume <$> loc_change vdf "Decrease") 0 "red" "Volume Decrease"].

(** The bars of a trace: the day and the height of each. *)
Definition bars (b : bar) : list (date * Z) := zip (bar_x b) (bar_y b).

(** A volume that fits a non-negative [int64]. *)
Definition int64_volume (o : volume_row) : Prop := 0 <= vVolume o < 2 ^ 63.

(** * Properties *)

(** ** The monad *)

Lemma bind_err {A B} (m : M A) (f : A -> M B) t e :
  m = (t, inl e) -> m ≫= f = (t, inl e).
Proof. by intros ->. Qed.

Lemma bind_ret {A B} (a : A) (f : A -> M B) : mret a ≫= f = f a.
Proof. unfold mbind, mret, M_bind, M_ret. by destruct (f a). Qed.

Lemma bind_silent {A B} (a : A) (f : A -> M B) :
  (([], inr a) : M A) ≫= f = f a.
Proof. apply bind_ret. Qed.

Lemma M_eta {A} (m : M A) : m = (trace m, outcome m).
Proof. by destruct m. Qed.

(** ** Dates *)

Lemma date_eqb_eq a b : date_eqb a b = true <-> a = b.
Proof.
  destruct a as [y m d], b as [y' m' d']. unfold date_eqb. simpl.
  rewrite !andb_true_iff, !Z.eqb_eq. split.
  - by intros [[-> ->] ->].
  - intros [= -> -> ->]. auto.
Qed.

Lemma date_ltb_irrefl a : date_ltb a a = false.
Proof.
  unfold date_ltb. rewrite !Z.ltb_irrefl, !Z.eqb_refl. reflexivity.
Qed.

(** ** The validation steps *)

Lemma assert_ticker_some p t msg price :
  regularMarketPrice p t = inr (Some price) ->
  assert_ticker p t msg = ([EvInfo t], inr tt).
Proof. unfold assert_ticker, call. by intros ->. Qed.

Lemma assert_ticker_none p t msg :
  regularMarketPrice p t = inr None ->
  assert_ticker p t msg = ([EvInfo t], inl (NameError msg)).
Proof. unfold assert_ticker, call. by intros ->. Qed.

Lemma assert_ticker_raise p t msg e :
  regularMarketPrice p t = inl e ->
  assert_ticker p t msg = ([EvInfo t], inl (Foreign e)).
Proof. unfold assert_ticker, call. by intros ->. Qed.

Lemma assert_date_some s msg d :
  strptime s = Some d -> assert_date s msg = ([], inr tt).
Proof. unfold assert_date. by intros ->. Qed.

Lemma assert_date_none s msg :
  strptime s = None -> assert_date s msg = ([], inl (ValueError msg)).
Proof. unfold assert_date. by intros ->. Qed.

Lemma assert_range_spec s e ds de :
  strptime s = Some ds -> strptime e = Some de ->
  assert_range s e =
    if date_ltb de ds then ([], inl InvalidDateRangeError) else ([], inr tt).
Proof. unfold assert_range. intros -> ->. by destruct (date_ltb de ds). Qed.

(** ** The rebasing loop *)

Lemma iloc_lookup data i d r :
  data !! i = Some (d, r) -> iloc data i = mret r.
Proof. unfold iloc. by intros ->. Qed.

Lemma iloc_set_lookup data i d r new :
  data !! i = Some (d, r) -> iloc_set data i new = mret (<[i := (d, new)]> data).
Proof. unfold iloc_set. by intros ->. Qed.

Lemma rebase_loop_spec d0 r0 done todo :
  rebase_loop (seq (S (length done)) (length todo))
              ((d0, r0) :: done ++ todo)
  = mret ((d0, r0) :: done
            ++ ((fun dr => (fst dr, rebase_row (snd dr) r0)) <$> todo)).
Proof.
  revert done. induction todo as [|[d r] todo IH]; intros done.
  - reflexivity.
  - cbn [length seq rebase_loop].
    assert (Hi : ((d0, r0) :: done ++ (d, r) :: todo) !! S (length done)
                 = Some (d, r))
      by (cbn; apply list_lookup_middle; reflexivity).
    rewrite (iloc_lookup _ _ _ _ Hi), bind_ret.
    rewrite (iloc_lookup ((d0, r0) :: done ++ (d, r) :: todo) 0%nat d0 r0 eq_refl),
      bind_ret.
    rewrite (iloc_set_lookup _ _ _ _ _ Hi), bind_ret.
    replace (<[S (length done) := (d, rebase_row r r0)]>
               ((d0, r0) :: done ++ (d, r) :: todo))
      with ((d0, r0) :: (done ++ [(d, rebase_row r r0)]) ++ todo).
    + replace (S (S (length done)))
        with (S (length (done ++ [(d, rebase_row r r0)])))
        by (rewrite length_app; cbn; lia).
      rewrite IH. rewrite <- app_assoc. reflexivity.
    + cbn. f_equal. rewrite <- app_assoc. cbn.
      by rewrite (insert_app_r_alt done _ (length done)), Nat.sub_diag.
Qed.

Lemma rebase_spec data :
  rebase data =
    match data with
    | [] => raise (IndexError msg_iloc)
    | _ :: _ => mret (rebased data)
    end.
Proof.
  destruct data as [|[d0 r0] later]; [reflexivity|].
  unfold rebase. cbn [length]. rewrite Nat.sub_succ, Nat.sub_0_r.
  pose proof (rebase_loop_spec d0 r0 [] later) as H.
  cbn [length app] in H. rewrite H, bind_ret. reflexivity.
Qed.

(** ** [percent_change] on valid arguments *)

Lemma percent_change_checked p t s e ds de :
  valid_ticker p t ->
  strptime s = Some ds -> strptime e = Some de ->
  percent_change p t s e =
    if date_ltb de ds then ([EvInfo t], inl InvalidDateRangeError)
    else
      ([EvInfo t; EvDownload t s e],
       match download p t s e with
       | inl err => inl (Foreign err)
       | inr [] => inl (IndexError msg_iloc)
       | inr raw => inr (Frame pct_label (rebased (rows (drop_columns raw))))
       end).
Proof.
  intros [HT [price Hp]] Hs He. unfold percent_change, lift.
  rewrite HT, (assert_ticker_some _ _ _ _ Hp).
  rewrite (assert_date_some _ _ _ Hs), (assert_date_some _ _ _ He).
  rewrite (assert_range_spec _ _ _ _ Hs He).
  destruct (date_ltb de ds); [reflexivity|].
  unfold call. destruct (download p t s e) as [err|raw]; [reflexivity|].
  cbn [mbind M_bind app propagate]. rewrite rebase_spec.
  destruct raw as [|r0 raw]; reflexivity.
Qed.

Lemma rebase_row_lookup r r0 j c c0 :
  r !! j = Some c -> r0 !! j = Some c0 ->
  rebase_row r r0 !! j = Some ((c - c0) / c0 * 100)%float.
Proof.
  intros Hc Hc0. unfold rebase_row, series_mul, series_div, series_sub.
  rewrite list_lookup_fmap, !lookup_zip_with, Hc, Hc0. reflexivity.
Qed.

Lemma rebased_lookup_later data d0 r0 i d r :
  data !! 0%nat = Some (d0, r0) -> (0 < i)%nat -> data !! i = Some (d, r) ->
  rebased data !! i = Some (d, rebase_row r r0).
Proof.
  destruct data as [|[d0' r0'] later]; [done|].
  intros [= -> ->] Hi Hl. destruct i as [|i]; [lia|].
  change (later !! i = Some (d, r)) in Hl.
  change (((fun dr : date * row => (fst dr, rebase_row (snd dr) r0)) <$> later)
            !! i = Some (d, rebase_row r r0)).
  by rewrite list_lookup_fmap, Hl.
Qed.

Lemma rebased_lookup_first data d0 r0 :
  data !! 0%nat = Some (d0, r0) ->
  rebased data !! 0%nat = Some (d0, rebase_row r0 r0).
Proof. destruct data as [|[d0' r0'] later]; [done|]. by intros [= -> ->]. Qed.

Lemma length_rebased data : length (rebased data) = length data.
Proof.
  destruct data as [|[d0 r0] later]; [done|]. cbn. by rewrite length_fmap.
Qed.

Lemma drop_columns_lookup raw i r :
  raw !! i = Some r -> rows (drop_columns raw) !! i = Some (Date r, Close r).
Proof. intros H. cbn. by rewrite list_lookup_fmap, H. Qed.

(** What a call on valid arguments returns when the fetch has rows. *)
Lemma percent_change_returns p t s e ds de raw r0 :
  valid_ticker p t ->
  strptime s = Some ds -> strptime e = Some de -> date_ltb de ds = false ->
  download p t s e = inr raw -> raw !! 0%nat = Some r0 ->
  percent_change p t s e =
    ([EvInfo t; EvDownload t s e],
     inr (Frame pct_label (rebased (rows (drop_columns raw))))).
Proof.
  intros Hv Hs He Hlt Hd H0.
  rewrite (percent_change_checked _ _ _ _ _ _ Hv Hs He), Hlt, Hd.
  by destruct raw.
Qed.

(** C1.  On a valid ticker and a valid date range, for every index [i > 0]
    of the fetched close prices, entry [i] of the series that
    [percent_change] returns is [(Close[i] - Close[0]) / Close[0] * 100], in
    every ticker column [j] on its own. *)
Theorem percent_change_formula p t s e ds de raw i r r0 :
  valid_ticker p t ->
  strptime s = Some ds -> strptime e = Some de -> date_ltb de ds = false ->
  download p t s e = inr raw ->
  (0 < i)%nat -> raw !! i = Some r -> raw !! 0%nat = Some r0 ->
  exists f vals,
    outcome (percent_change p t s e) = inr f /\
    length (rows f) = length raw /\
    rows f !! i = Some (Date r, vals) /\
    forall j c c0,
      Close r !! j = Some c -> Close r0 !! j = Some c0 ->
      vals !! j = Some ((c - c0) / c0 * 100)%float.
Proof.
  intros Hv Hs He Hlt Hd Hi Hr H0.
  rewrite (percent_change_returns _ _ _ _ _ _ _ _ Hv Hs He Hlt Hd H0).
  eexists _, (rebase_row (Close r) (Close r0)). cbn [outcome snd rows].
  split; [reflexivity|]. cbn [rows]. split; [|split].
  - rewrite length_rebased. unfold drop_columns. cbn [rows].
    by rewrite length_fmap.
  - apply (rebased_lookup_later _ (Date r0)); [|done|].
    + by apply drop_columns_lookup.
    + by apply drop_columns_lookup.
  - intros j c c0. apply rebase_row_lookup.
Qed.

Lemma percent_change_formula_witness :
  exists f vals,
    outcome (percent_change Sample.yahoo (PyStr "AAPL")
                            "2020-01-01" "2020-01-10") = inr f /\
    length (rows f) = 3%nat /\
    rows f !! 2%nat = Some (Sample.d3, vals) /\
    forall j c c0,
      [60%float] !! j = Some c -> [80%float] !! j = Some c0 ->
      vals !! j = Some ((c - c0) / c0 * 100)%float.
Proof.
  apply (percent_change_formula Sample.yahoo (PyStr "AAPL")
           "2020-01-01" "2020-01-10" (mkdate 2020 1 1) (mkdate 2020 1 10)
           Sample.aapl 2 (Sample.bar Sample.d3 60%float 2000)
           (Sample.bar Sample.d1 80%float 1000)).
  - split; [reflexivity | eexists; reflexivity].
  - reflexivity.
  - reflexivity.
  - reflexivity.
  - reflexivity.
  - lia.
  - reflexivity.
  - reflexivity.
Defined.

(** C10.  When the fetch returns no row, [percent_change] returns no
    series: reading row 0 of the empty table raises, after the fetch. *)
Theorem percent_change_empty p t s e ds de :
  valid_ticker p t ->
  strptime s = Some ds -> strptime e = Some de -> date_ltb de ds = false ->
  download p t s e = inr [] ->
  percent_change p t s e =
    ([EvInfo t; EvDownload t s e], inl (IndexError msg_iloc)).
Proof.
  intros Hv Hs He Hlt Hd.
  by rewrite (percent_change_checked _ _ _ _ _ _ Hv Hs He), Hlt, Hd.
Qed.

Lemma percent_change_empty_witness :
  percent_change Sample.yahoo (PyStr "NEWCO") "2020-01-01" "2020-01-10" =
    ([EvInfo (PyStr "NEWCO");
      EvDownload (PyStr "NEWCO") "2020-01-01" "2020-01-10"],
     inl (IndexError msg_iloc)).
Proof.
  apply (percent_change_empty Sample.yahoo (PyStr "NEWCO")
           "2020-01-01" "2020-01-10" (mkdate 2020 1 1) (mkdate 2020 1 10)).
  - split; [reflexivity | eexists; reflexivity].
  - reflexivity.
  - reflexivity.
  - reflexivity.
  - reflexivity.
Defined.

(** C9.  On a valid ticker and two dates that parse, [percent_change] fails
    with the range error exactly when the end date precedes the start date;
    equal dates raise no range error. *)
Theorem percent_change_range p t s e ds de :
  valid_ticker p t ->
  strptime s = Some ds -> strptime e = Some de ->
  (outcome (percent_change p t s e) = inl InvalidDateRangeError
     <-> date_ltb de ds = true)
  /\ (de = ds ->
      outcome (percent_change p t s e) <> inl InvalidDateRangeError).
Proof.
  intros Hv Hs He.
  rewrite (percent_change_checked _ _ _ _ _ _ Hv Hs He).
  split.
  - destruct (date_ltb de ds) eqn:Hlt; cbn [outcome snd].
    + split; reflexivity.
    + split; [|discriminate].
      destruct (download p t s e) as [err|[|r0 raw]]; discriminate.
  - intros ->. rewrite date_ltb_irrefl. cbn [outcome snd].
    destruct (download p t s e) as [err|[|r0 raw]]; discriminate.
Qed.

Lemma percent_change_range_witness :
  (outcome (percent_change Sample.yahoo (PyStr "AAPL")
                           "2020-02-01" "2020-01-01")
     = inl InvalidDateRangeError
   <-> date_ltb (mkdate 2020 1 1) (mkdate 2020 2 1) = true)
  /\ (mkdate 2020 1 1 = mkdate 2020 2 1 ->
      outcome (percent_change Sample.yahoo (PyStr "AAPL")
                              "2020-02-01" "2020-01-01")
        <> inl InvalidDateRangeError).
Proof.
  apply (percent_change_range Sample.yahoo (PyStr "AAPL")
           "2020-02-01" "2020-01-01").
  - split; [reflexivity | eexists; reflexivity].
  - reflexivity.
  - reflexivity.
Defined.

(** ** Row 0 of the rebased table *)

Lemma rebase_self_SF c s m e :
  Prim2SF c = S754_finite s m e ->
  Prim2SF ((c - c) / c * 100)%float = S754_zero s.
Proof.
  intros H. rewrite mul_spec, div_spec, sub_spec, H.
  unfold SF64sub, SFsub. rewrite Z.min_id.
  unfold shl_align. rewrite !Z.sub_diag.
  cbn [binary_normalize]. unfold SF64div, SFdiv. cbn [xorb].
  replace (Prim2SF 100) with (S754_finite false 7036874417766400 (-46))
    by (vm_compute; reflexivity).
  unfold SF64mul, SFmul. by destruct s.
Qed.

Lemma finite_nonzero_SF c :
  is_finite c = true -> is_zero c = false ->
  exists s m e, Prim2SF c = S754_finite s m e.
Proof.
  unfold is_finite, is_nan, is_infinity, is_zero.
  rewrite !FloatAxioms.eqb_spec, abs_spec.
  destruct (Prim2SF c) as [s|s| |s m e] eqn:E; [| | |by eauto].
  - destruct s; vm_compute; intros; congruence.
  - destruct s; vm_compute; intros; congruence.
  - vm_compute; intros; congruence.
Qed.

Lemma rebase_self_zero c :
  is_finite c = true -> is_zero c = false ->
  is_zero ((c - c) / c * 100)%float = true /\
  ((0 <? c)%float = true -> ((c - c) / c * 100)%float = 0%float).
Proof.
  intros Hf Hz. destruct (finite_nonzero_SF c Hf Hz) as (s & m & e & H).
  pose proof (rebase_self_SF c s m e H) as Hr. split.
  - unfold is_zero. rewrite FloatAxioms.eqb_spec, Hr. by destruct s.
  - rewrite ltb_spec, H. intros Hpos. apply Prim2SF_inj. rewrite Hr.
    destruct s; [discriminate Hpos | reflexivity].
Qed.

(** C5, as the specification states it, fails: the first close of PENNY is
    zero, and entry 0 of its series is not a number. *)
Lemma percent_change_first_entry_nan :
  exists f,
    outcome (percent_change Sample.yahoo (PyStr "PENNY")
                            "2020-01-01" "2020-01-10") = inr f
    /\ rows f !! 0%nat = Some (Sample.d1, [nan])
    /\ ~ first_entry_zero f.
Proof.
  eexists. split; [vm_compute; reflexivity|]. split; [reflexivity|].
  intros H. specialize (H Sample.d1 [nan] nan eq_refl).
  assert (Hin : nan ∈ [nan]) by apply list_elem_of_here.
  apply H in Hin. vm_compute in Hin. discriminate Hin.
Qed.

(** C5, amended.  On a valid ticker and a valid date range whose fetch has a
    row, row 0 is rebased like the others: entry 0 is
    [(Close[0] - Close[0]) / Close[0] * 100] in every column, which is zero
    when [Close[0]] is a finite number other than zero, and [+0] when it is
    positive. *)
Theorem percent_change_first_entry p t s e ds de raw r0 :
  valid_ticker p t ->
  strptime s = Some ds -> strptime e = Some de -> date_ltb de ds = false ->
  download p t s e = inr raw -> raw !! 0%nat = Some r0 ->
  exists f vals,
    outcome (percent_change p t s e) = inr f /\
    rows f !! 0%nat = Some (Date r0, vals) /\
    forall j c0,
      Close r0 !! j = Some c0 ->
      vals !! j = Some ((c0 - c0) / c0 * 100)%float /\
      (is_finite c0 = true -> is_zero c0 = false ->
       is_zero ((c0 - c0) / c0 * 100)%float = true /\
       ((0 <? c0)%float = true -> ((c0 - c0) / c0 * 100)%float = 0%float)).
Proof.
  intros Hv Hs He Hlt Hd H0.
  rewrite (percent_change_returns _ _ _ _ _ _ _ _ Hv Hs He Hlt Hd H0).
  eexists _, (rebase_row (Close r0) (Close r0)). cbn [outcome snd rows].
  split; [reflexivity|]. cbn [rows]. split.
  - apply rebased_lookup_first. by apply drop_columns_lookup.
  - intros j c0 Hc. split; [by apply rebase_row_lookup|].
    apply rebase_self_zero.
Qed.

Lemma percent_change_first_entry_witness :
  exists f vals,
    outcome (percent_change Sample.yahoo (PyStr "AAPL")
                            "2020-01-01" "2020-01-10") = inr f /\
    rows f !! 0%nat = Some (Sample.d1, vals) /\
    forall j c0,
      [80%float] !! j = Some c0 ->
      vals !! j = Some ((c0 - c0) / c0 * 100)%float /\
      (is_finite c0 = true -> is_zero c0 = false ->
       is_zero ((c0 - c0) / c0 * 100)%float = true /\
       ((0 <? c0)%float = true -> ((c0 - c0) / c0 * 100)%float = 0%float)).
Proof.
  apply (percent_change_first_entry Sample.yahoo (PyStr "AAPL")
           "2020-01-01" "2020-01-10" (mkdate 2020 1 1) (mkdate 2020 1 10)
           Sample.aapl (Sample.bar Sample.d1 80%float 1000)).
  - split; [reflexivity | eexists; reflexivity].
  - reflexivity.
  - reflexivity.
  - reflexivity.
  - reflexivity.
  - reflexivity.
Defined.

(** ** [volume_change] *)

Lemma np_select_label_of s :
  np_select (gt0 s) (lt0 s) "Increase" "Decrease" = label_of <$> s.
Proof.
  unfold np_select, gt0, lt0.
  induction s as [|[z|] s IH]; [done| |]; cbn; by rewrite <- IH.
Qed.

Lemma classify_label_of v : classify v = label_of <$> diff v.
Proof. apply np_select_label_of. Qed.

Lemma label_of_allowed c : allowed_label (label_of c).
Proof.
  unfold allowed_label, label_of.
  destruct c as [z|]; [|auto]. destruct (0 <? z); [auto|].
  destruct (z <? 0); auto.
Qed.

Lemma classify_allowed v : Forall allowed_label (classify v).
Proof.
  rewrite classify_label_of. apply Forall_fmap, Forall_true.
  intros c. apply label_of_allowed.
Qed.

Lemma check_indicators_allowed l :
  Forall allowed_label l -> check_indicators l = mret tt.
Proof.
  induction 1 as [|x l Hx _ IH]; [reflexivity|].
  cbn [check_indicators]. rewrite IH.
  by destruct Hx as [-> | [-> | ->]].
Qed.

Lemma length_diff v : length (diff v) = length v.
Proof.
  destruct v as [|x later]; [done|]. cbn [diff length]. f_equal.
  rewrite length_zip_with. cbn [length]. lia.
Qed.

Lemma diff_lookup_0 v x : v !! 0%nat = Some x -> diff v !! 0%nat = Some None.
Proof. by destruct v. Qed.

Lemma diff_lookup_S v i prev cur :
  v !! i = Some prev -> v !! S i = Some cur ->
  diff v !! S i = Some (Some (int64_wrap (cur - prev))).
Proof.
  destruct v as [|x later]; [done|]. intros Hp Hc.
  change (later !! i = Some cur) in Hc.
  change (zip_with (fun prev cur => Some (int64_wrap (cur - prev)))
            (x :: later) later !! i
          = Some (Some (int64_wrap (cur - prev)))).
  by rewrite lookup_zip_with, Hp, Hc.
Qed.

Lemma int64_wrap_small z : - 2 ^ 63 <= z < 2 ^ 63 -> int64_wrap z = z.
Proof. intros H. unfold int64_wrap. rewrite Z.mod_small; lia. Qed.

Lemma length_volume_rows df : length (volume_rows df) = length df.
Proof.
  unfold volume_rows. rewrite length_zip_with, classify_label_of.
  rewrite length_fmap, length_diff, length_fmap. lia.
Qed.

Lemma volume_rows_lookup df i o :
  volume_rows df !! i = Some o ->
  df !! i = Some (vDate o, vVolume o)
  /\ classify (snd <$> df) !! i = Some (Volume_Change o).
Proof.
  unfold volume_rows. rewrite lookup_zip_with.
  destruct (df !! i) as [[d v]|]; [|done].
  destruct (classify (snd <$> df) !! i) as [c|]; [|done].
  by intros [= <-].
Qed.

Lemma volume_change_checked p t s e ds de :
  valid_ticker p t ->
  strptime s = Some ds -> strptime e = Some de ->
  volume_change p t s e =
    ([EvPdrOverride; EvInfo t; EvGetDataYahoo t s e],
     match get_data_yahoo p t s e with
     | inl err => inl (Foreign err)
     | inr raw =>
         match mapM volume_cell raw with
         | Some df => inr (volume_rows df)
         | None =>
             inl (Foreign (Raised ["KeyError"; "LookupError"; "Exception"]
                                  "'Volume'"))
         end
     end).
Proof.
  intros [HT [price Hp]] Hs He. unfold volume_change, emit, lift.
  rewrite HT, (assert_ticker_some _ _ _ _ Hp).
  rewrite (assert_date_some _ _ _ Hs), (assert_date_some _ _ _ He).
  unfold call. destruct (get_data_yahoo p t s e) as [err|raw]; [reflexivity|].
  cbn [mbind M_bind app propagate]. unfold volume_column.
  destruct (mapM volume_cell raw) as [df|]; [|reflexivity].
  rewrite bind_ret, (check_indicators_allowed _ (classify_allowed _)).
  reflexivity.
Qed.

Lemma volume_rows_lookup_Some df i d v :
  df !! i = Some (d, v) ->
  exists c, volume_rows df !! i = Some (VolumeRow d v c).
Proof.
  intros H. unfold volume_rows. rewrite lookup_zip_with, H.
  destruct (classify (snd <$> df) !! i) as [c|] eqn:Hc; [by exists c|].
  apply lookup_ge_None in Hc. apply lookup_lt_Some in H.
  rewrite classify_label_of, length_fmap, length_diff, length_fmap in Hc. lia.
Qed.

Lemma label_of_sign z :
  (label_of (Some z) = "Increase" <-> z > 0)
  /\ (label_of (Some z) = "Decrease" <-> z < 0)
  /\ (z = 0 -> label_of (Some z) = "nan").
Proof.
  unfold label_of. destruct (Z.ltb_spec 0 z) as [Hpos|Hle].
  - split; [split; [lia | reflexivity]|].
    split; [split; [discriminate | lia]|]. intros ->. lia.
  - destruct (Z.ltb_spec z 0) as [Hneg|Hge].
    + split; [split; [discriminate | lia]|].
      split; [split; [lia | reflexivity]|]. intros ->. lia.
    + split; [split; [discriminate | lia]|].
      split; [split; [discriminate | lia]|]. reflexivity.
Qed.

(** C2.  The series that [volume_change] builds from the volumes of the
    provider has the label Undefined (the string nan) at index 0, and at
    every later index Increase exactly when the volume is above the one
    before it, Decrease exactly when it is below, and Undefined when the
    two are equal. *)
Theorem volume_change_labels p t s e ds de raw :
  valid_ticker p t ->
  strptime s = Some ds -> strptime e = Some de ->
  get_data_yahoo p t s e = inr raw ->
  Forall volume_cells raw ->
  exists out,
    outcome (volume_change p t s e) = inr out /\
    length out = length raw /\
    (forall i r, raw !! i = Some r ->
       exists o, out !! i = Some o /\ vDate o = Date r
                 /\ Volume r = [vVolume o]) /\
    (forall o, out !! 0%nat = Some o -> Volume_Change o = "nan") /\
    (forall i prev cur,
       out !! i = Some prev -> out !! S i = Some cur ->
       (Volume_Change cur = "Increase" <-> vVolume cur > vVolume prev) /\
       (Volume_Change cur = "Decrease" <-> vVolume cur < vVolume prev) /\
       (vVolume cur = vVolume prev -> Volume_Change cur = "nan")).
Proof.
  intros Hv Hs He Hg Hcells.
  rewrite (volume_change_checked _ _ _ _ _ _ Hv Hs He), Hg.
  destruct (mapM volume_cell raw) as [df|] eqn:Hdf.
  2: { apply mapM_None_1, Exists_exists in Hdf as (r & Hin & Hnone).
       rewrite Forall_forall in Hcells.
       destruct (Hcells r Hin) as (v & Hvol & _).
       unfold volume_cell in Hnone. by rewrite Hvol in Hnone. }
  pose proof (mapM_Some_1 _ _ _ Hdf) as H2.
  assert (Hbound : forall i d v, df !! i = Some (d, v) -> 0 <= v < 2 ^ 63).
  { intros i d v Hi.
    destruct (Forall2_lookup_r _ _ _ _ _ H2 Hi) as (r & Hr & Hcell).
    destruct (Forall_lookup_1 _ _ _ _ Hcells Hr) as (v' & Hvol & Hb).
    unfold volume_cell in Hcell. rewrite Hvol in Hcell.
    by injection Hcell as _ ->. }
  exists (volume_rows df). cbn [outcome snd].
  split; [reflexivity|]. split; [|split; [|split]].
  - rewrite length_volume_rows. symmetry. by eapply Forall2_length.
  - intros i r Hr.
    destruct (Forall2_lookup_l _ _ _ _ _ H2 Hr) as ([d v] & Hi & Hcell).
    destruct (volume_rows_lookup_Some _ _ _ _ Hi) as [c Hc].
    eexists. split; [exact Hc|]. cbn.
    unfold volume_cell in Hcell. destruct (Volume r) as [|v' [|]]; try done.
    by injection Hcell as -> ->.
  - intros o Ho. apply volume_rows_lookup in Ho as [Hi Hc].
    rewrite classify_label_of, list_lookup_fmap in Hc.
    rewrite (diff_lookup_0 _ (vVolume o)) in Hc
      by (by rewrite list_lookup_fmap, Hi).
    by injection Hc as <-.
  - intros i prev cur Hprev Hcur.
    apply volume_rows_lookup in Hprev as [Hp _].
    apply volume_rows_lookup in Hcur as [Hc Hl].
    rewrite classify_label_of, list_lookup_fmap in Hl.
    rewrite (diff_lookup_S _ _ (vVolume prev) (vVolume cur)) in Hl
      by (by rewrite list_lookup_fmap, ?Hp, ?Hc).
    injection Hl as <-.
    pose proof (Hbound _ _ _ Hp). pose proof (Hbound _ _ _ Hc).
    rewrite int64_wrap_small by lia.
    destruct (label_of_sign (vVolume cur - vVolume prev)) as (HI & HD & HU).
    rewrite HI, HD. split; [lia|]. split; [lia|].
    intros Heq. apply HU. lia.
Qed.

Lemma volume_change_labels_witness :
  exists out,
    outcome (volume_change Sample.yahoo (PyStr "AAPL")
                           "2020-01-01" "2020-01-10") = inr out /\
    length out = 3%nat /\
    (forall i r, Sample.aapl !! i = Some r ->
       exists o, out !! i = Some o /\ vDate o = Date r
                 /\ Volume r = [vVolume o]) /\
    (forall o, out !! 0%nat = Some o -> Volume_Change o = "nan") /\
    (forall i prev cur,
       out !! i = Some prev -> out !! S i = Some cur ->
       (Volume_Change cur = "Increase" <-> vVolume cur > vVolume prev) /\
       (Volume_Change cur = "Decrease" <-> vVolume cur < vVolume prev) /\
       (vVolume cur = vVolume prev -> Volume_Change cur = "nan")).
Proof.
  apply (volume_change_labels Sample.yahoo (PyStr "AAPL")
           "2020-01-01" "2020-01-10" (mkdate 2020 1 1) (mkdate 2020 1 10)
           Sample.aapl).
  - split; [reflexivity | eexists; reflexivity].
  - reflexivity.
  - reflexivity.
  - reflexivity.
  - repeat constructor; eexists; (split; [reflexivity | lia]).
Defined.

(** How a call of [volume_change] can end. *)
Lemma volume_change_outcome p t s e :
  (exists f, outcome (volume_change p t s e) = inl (Foreign f))
  \/ outcome (volume_change p t s e) = inl (NameError msg_ticker)
  \/ outcome (volume_change p t s e) = inl (ValueError msg_vstart)
  \/ outcome (volume_change p t s e) = inl (ValueError msg_vend)
  \/ exists df, outcome (volume_change p t s e) = inr (volume_rows df).
Proof.
  destruct (Ticker p t) as [f|[]] eqn:HT.
  { left. exists f. unfold volume_change, emit, lift. by rewrite HT. }
  destruct (regularMarketPrice p t) as [f|[price|]] eqn:HP.
  - left. exists f. unfold volume_change, emit, lift.
    by rewrite HT, (assert_ticker_raise _ _ _ _ HP).
  - destruct (strptime s) as [ds|] eqn:Hs.
    + destruct (strptime e) as [de|] eqn:He.
      * assert (Hv : valid_ticker p t) by (split; eauto).
        rewrite (volume_change_checked _ _ _ _ _ _ Hv Hs He).
        cbn [outcome snd].
        destruct (get_data_yahoo p t s e) as [err|raw]; [left; eauto|].
        destruct (mapM volume_cell raw) as [df|]; [|left; eauto].
        do 4 right. eauto.
      * do 3 right. left. unfold volume_change, emit, lift.
        by rewrite HT, (assert_ticker_some _ _ _ _ HP),
          (assert_date_some _ _ _ Hs), (assert_date_none _ _ He).
    + do 2 right. left. unfold volume_change, emit, lift.
      by rewrite HT, (assert_ticker_some _ _ _ _ HP),
        (assert_date_none _ _ Hs).
  - right. left. unfold volume_change, emit, lift.
    by rewrite HT, (assert_ticker_none _ _ _ HP).
Qed.

(** C7.  Every label that the classification produces is Increase,
    Decrease or Undefined (the string nan), for every volume series, so the
    check of lines 247 to 249 passes and [volume_change] never ends with
    its error. *)
Theorem volume_change_indicators p t s e :
  (forall volumes,
      Forall allowed_label (classify volumes)
      /\ check_indicators (classify volumes) = mret tt)
  /\ outcome (volume_change p t s e) <> inl (ValueError msg_indicator)
  /\ (forall out,
        outcome (volume_change p t s e) = inr out ->
        Forall (fun o => allowed_label (Volume_Change o)) out).
Proof.
  split; [|split].
  - intros v. split; [apply classify_allowed|].
    apply check_indicators_allowed, classify_allowed.
  - destruct (volume_change_outcome p t s e)
      as [[f ->] | [-> | [-> | [-> | [df ->]]]]]; discriminate.
  - intros out Hout.
    destruct (volume_change_outcome p t s e)
      as [[f H] | [H | [H | [H | [df H]]]]];
      rewrite H in Hout; try discriminate.
    injection Hout as <-. apply Forall_lookup. intros i o Ho.
    apply volume_rows_lookup in Ho as [_ Hc].
    by eapply Forall_lookup_1; [apply classify_allowed|].
Qed.

(** ** [profit_viz] *)

Lemma elem_of_merge_rows l r d x y :
  (d, x, y) ∈ merge_rows l r <-> (d, x) ∈ l /\ (d, y) ∈ r.
Proof.
  unfold merge_rows. rewrite list_elem_of_bind. split.
  - intros ([d' x'] & Hin & Hl). apply list_elem_of_fmap in Hin
      as ([d'' y'] & Heq & Hf). apply list_elem_of_filter in Hf as [Hd Hr].
    cbn in Heq, Hd. injection Heq as -> -> ->.
    apply date_eqb_eq in Hd as ->. by split.
  - intros [Hl Hr]. exists (d, x). split; [|done].
    apply list_elem_of_fmap. exists (d, y). split; [done|].
    apply list_elem_of_filter. split; [|done]. cbn. by apply date_eqb_eq.
Qed.

Lemma elem_of_frame_dates f d : d ∈ frame_dates f <-> exists x, (d, x) ∈ rows f.
Proof.
  unfold frame_dates. rewrite list_elem_of_fmap. split.
  - intros ([d' x] & -> & H). by exists x.
  - intros [x H]. by exists (d, x).
Qed.

Lemma elem_of_merge_dates l r d :
  d ∈ table_dates (rename_table (merge l r))
  <-> d ∈ frame_dates l /\ d ∈ frame_dates r.
Proof.
  assert (Hrows : trows (rename_table (merge l r))
                  = merge_rows (rows l) (rows r))
    by (unfold rename_table, merge; by destruct (String.eqb _ _)).
  unfold table_dates. rewrite Hrows, list_elem_of_fmap.
  rewrite !elem_of_frame_dates. split.
  - intros ([[d' x] y] & -> & H). apply elem_of_merge_rows in H as [Hl Hr].
    eauto.
  - intros [[x Hl] [y Hr]]. exists (d, x, y). split; [done|].
    by apply elem_of_merge_rows.
Qed.

(** What a call of [percent_change] that returns a series went through. *)
Lemma percent_change_inv p t s e f :
  outcome (percent_change p t s e) = inr f ->
  valid_ticker p t
  /\ (exists ds de, strptime s = Some ds /\ strptime e = Some de
                   /\ date_ltb de ds = false)
  /\ label f = pct_label.
Proof.
  destruct (Ticker p t) as [x|[]] eqn:HT.
  { unfold percent_change, lift. by rewrite HT. }
  destruct (regularMarketPrice p t) as [x|[price|]] eqn:HP.
  - unfold percent_change, lift.
    by rewrite HT, (assert_ticker_raise _ _ _ _ HP).
  - assert (Hv : valid_ticker p t) by (split; eauto).
    destruct (strptime s) as [ds|] eqn:Hs.
    + destruct (strptime e) as [de|] eqn:He.
      * rewrite (percent_change_checked _ _ _ _ _ _ Hv Hs He).
        destruct (date_ltb de ds) eqn:Hlt; [done|]. cbn [outcome snd].
        destruct (download p t s e) as [err|[|r0 raw]]; try done.
        intros [= <-]. split; [done|]. split; [|done]. eauto.
      * unfold percent_change, lift.
        by rewrite HT, (assert_ticker_some _ _ _ _ HP),
          (assert_date_some _ _ _ Hs), (assert_date_none _ _ He).
    + unfold percent_change, lift.
      by rewrite HT, (assert_ticker_some _ _ _ _ HP),
        (assert_date_none _ _ Hs).
  - unfold percent_change, lift.
    by rewrite HT, (assert_ticker_none _ _ _ HP).
Qed.

Lemma profit_checks_pass p st s e bt ds de :
  valid_ticker p st -> valid_ticker p bt ->
  is_str st = true -> is_str bt = true ->
  strptime s = Some ds -> strptime e = Some de -> date_ltb de ds = false ->
  profit_checks p st s e bt = ([EvInfo st; EvInfo bt], inr tt).
Proof.
  intros [_ [ps Hps]] [_ [pb Hpb]] Hst Hbt Hs He Hlt. unfold profit_checks.
  rewrite (assert_ticker_some _ _ _ _ Hps), (assert_ticker_some _ _ _ _ Hpb).
  rewrite Hst, Hbt, (assert_date_some _ _ _ Hs), (assert_date_some _ _ _ He).
  by rewrite (assert_range_spec _ _ _ _ Hs He), Hlt.
Qed.

Lemma profit_viz_returns p st s e bt S B :
  is_str st = true -> is_str bt = true ->
  outcome (percent_change p st s e) = inr S ->
  outcome (percent_change p bt s e) = inr B ->
  outcome (profit_viz p st s e bt) = inr (chart_of st bt S B).
Proof.
  intros Hst Hbt HS HB.
  destruct (percent_change_inv _ _ _ _ _ HS)
    as (Hvs & (ds & de & Hs & He & Hlt) & _).
  destruct (percent_change_inv _ _ _ _ _ HB) as (Hvb & _ & _).
  unfold profit_viz, lift, profit_table.
  rewrite (proj1 Hvs), (proj1 Hvb).
  rewrite (profit_checks_pass _ _ _ _ _ _ _ Hvs Hvb Hst Hbt Hs He Hlt).
  rewrite (M_eta (percent_change p st s e)), HS.
  rewrite (M_eta (percent_change p bt s e)), HB.
  reflexivity.
Qed.

(** C3.  For the two series that [percent_change] computes for the stock and
    for the benchmark, the table of the chart that [profit_viz] returns has
    exactly the dates that are in both series. *)
Theorem profit_viz_dates p st s e bt S B :
  is_str st = true -> is_str bt = true ->
  outcome (percent_change p st s e) = inr S ->
  outcome (percent_change p bt s e) = inr B ->
  exists c,
    outcome (profit_viz p st s e bt) = inr c /\
    forall d,
      d ∈ table_dates (chart_data c)
      <-> d ∈ frame_dates S /\ d ∈ frame_dates B.
Proof.
  intros Hst Hbt HS HB. exists (chart_of st bt S B).
  split; [by apply profit_viz_returns|].
  intros d. apply elem_of_merge_dates.
Qed.

Module Scenario.
Import Sample.

Lemma stock_series :
  outcome (percent_change yahoo (PyStr "AAPL") "2020-01-01" "2020-01-10")
  = inr stock.
Proof. vm_compute. reflexivity. Qed.

Lemma benchmark_series :
  outcome (percent_change yahoo (PyStr "SPY") "2020-01-01" "2020-01-10")
  = inr benchmark.
Proof. vm_compute. reflexivity. Qed.

(** The table of the chart has the rows of d2 and d3. *)
Lemma joined_table :
  exists c,
    outcome (profit_viz yahoo (PyStr "AAPL") "2020-01-01" "2020-01-10"
                        (PyStr "SPY")) = inr c
    /\ chart_data c
        = Table stock_column bench_column
            [(d2, [25%float], [0%float]); (d3, [(-25)%float], [5%float])]
    /\ table_dates (chart_data c) = [d2; d3].
Proof. eexists. split; [vm_compute; reflexivity|]. by split. Qed.

End Scenario.

Lemma profit_viz_dates_witness :
  exists c,
    outcome (profit_viz Sample.yahoo (PyStr "AAPL") "2020-01-01"
                        "2020-01-10" (PyStr "SPY")) = inr c /\
    forall d,
      d ∈ table_dates (chart_data c)
      <-> d ∈ [Sample.d1; Sample.d2; Sample.d3]
          /\ d ∈ [Sample.d2; Sample.d3; Sample.d4].
Proof.
  apply (profit_viz_dates Sample.yahoo (PyStr "AAPL") "2020-01-01"
           "2020-01-10" (PyStr "SPY") Sample.stock Sample.benchmark).
  - reflexivity.
  - reflexivity.
  - vm_compute. reflexivity.
  - vm_compute. reflexivity.
Defined.

(** C4, as the specification states it, fails: d1 is a date of the stock
    series and no row of the table has it. *)
Lemma profit_viz_not_outer_join :
  exists c,
    outcome (profit_viz Sample.yahoo (PyStr "AAPL") "2020-01-01"
                        "2020-01-10" (PyStr "SPY")) = inr c
    /\ outcome (percent_change Sample.yahoo (PyStr "AAPL") "2020-01-01"
                               "2020-01-10") = inr Sample.stock
    /\ outcome (percent_change Sample.yahoo (PyStr "SPY") "2020-01-01"
                               "2020-01-10") = inr Sample.benchmark
    /\ ~ (forall d,
            d ∈ frame_dates Sample.stock
            \/ d ∈ frame_dates Sample.benchmark ->
            d ∈ table_dates (chart_data c)).
Proof.
  eexists. split; [vm_compute; reflexivity|].
  split; [vm_compute; reflexivity|]. split; [vm_compute; reflexivity|].
  intros H. specialize (H Sample.d1).
  assert (Hin : Sample.d1 ∈ [Sample.d2; Sample.d3]).
  { apply H. left. apply list_elem_of_here. }
  apply list_elem_of_In in Hin. cbn in Hin.
  destruct Hin as [Heq | [Heq | []]]; discriminate Heq.
Qed.

(** C4, amended.  The table is the inner join on the date of the two
    series: its rows are the pairs of a row of the stock series and a row
    of the benchmark series with the same date, and the two percent-change
    columns are renamed Profit Percent Stock and Profit Percent
    Benchmark. *)
Theorem profit_viz_inner_join p st s e bt S B :
  is_str st = true -> is_str bt = true ->
  outcome (percent_change p st s e) = inr S ->
  outcome (percent_change p bt s e) = inr B ->
  exists c,
    outcome (profit_viz p st s e bt) = inr c /\
    left_label (chart_data c) = stock_column /\
    right_label (chart_data c) = bench_column /\
    forall d x y,
      (d, x, y) ∈ trows (chart_data c)
      <-> (d, x) ∈ rows S /\ (d, y) ∈ rows B.
Proof.
  intros Hst Hbt HS HB. exists (chart_of st bt S B).
  split; [by apply profit_viz_returns|].
  destruct (percent_change_inv _ _ _ _ _ HS) as (_ & _ & HlS).
  destruct (percent_change_inv _ _ _ _ _ HB) as (_ & _ & HlB).
  unfold chart_of, rename_table, merge. cbn [chart_data].
  rewrite HlS, HlB. cbn [String.eqb left_label right_label trows].
  rewrite String.eqb_refl. cbn [left_label right_label trows].
  split; [reflexivity|]. split; [reflexivity|].
  intros d x y. apply elem_of_merge_rows.
Qed.

Lemma profit_viz_inner_join_witness :
  exists c,
    outcome (profit_viz Sample.yahoo (PyStr "AAPL") "2020-01-01"
                        "2020-01-10" (PyStr "SPY")) = inr c /\
    left_label (chart_data c) = stock_column /\
    right_label (chart_data c) = bench_column /\
    forall d x y,
      (d, x, y) ∈ trows (chart_data c)
      <-> (d, x) ∈ rows Sample.stock /\ (d, y) ∈ rows Sample.benchmark.
Proof.
  apply (profit_viz_inner_join Sample.yahoo (PyStr "AAPL") "2020-01-01"
           "2020-01-10" (PyStr "SPY") Sample.stock Sample.benchmark).
  - reflexivity.
  - reflexivity.
  - vm_compute. reflexivity.
  - vm_compute. reflexivity.
Defined.

(** ** Validation and the provider *)

Lemma rejected_fmap {A B} P (f : A -> B) (m : M A) :
  rejected P m -> rejected P (f <$> m).
Proof.
  destruct m as [t [err|a]]; intros (err' & Ho & Ht); [|discriminate Ho].
  injection Ho as <-. by exists err.
Qed.

Lemma rejected_bind {A B} P (m : M A) (f : A -> M B) :
  rejected P m -> rejected P (m ≫= f).
Proof.
  destruct m as [t [err|a]]; intros (err' & Ho & Ht); [|discriminate Ho].
  injection Ho as <-. by exists err.
Qed.

Lemma rejected_try_print {A} P (m : M A) cls :
  rejected P m -> rejected P (try_except m cls print_and_raise).
Proof.
  destruct m as [t [err|a]]; intros (err' & Ho & Ht & HP); [|discriminate Ho].
  injection Ho as <-. unfold try_except.
  destruct (existsb (isinstance err) cls).
  - exists err. split; [reflexivity|]. split; [|done].
    unfold print_and_raise, emit, raise.
    cbn [mbind M_bind trace fst app] in *.
    unfold no_fetch in *. by rewrite forallb_app, Ht.
  - by exists err.
Qed.

Lemma rejected_weaken {A} (P Q : exn -> Prop) (m : M A) :
  (forall err, P err -> Q err) -> rejected P m -> rejected Q m.
Proof. intros HPQ (err & Ho & Ht & HP). exists err. auto. Qed.

Lemma percent_change_rejects p t s e :
  resolves p t && range_ok s e = false ->
  rejected (validation_if (answers p t)) (percent_change p t s e).
Proof.
  unfold resolves, range_ok, answers.
  destruct (Ticker p t) as [x|[]] eqn:HT.
  { intros _. unfold percent_change, lift. rewrite HT. reject_now. }
  destruct (regularMarketPrice p t) as [x|[price|]] eqn:HP.
  - intros _. unfold percent_change, lift.
    rewrite HT, (assert_ticker_raise _ _ _ _ HP). reject_now.
  - assert (Hv : valid_ticker p t) by (split; eauto).
    destruct (strptime s) as [ds|] eqn:Hs.
    + destruct (strptime e) as [de|] eqn:He.
      * rewrite (percent_change_checked _ _ _ _ _ _ Hv Hs He).
        destruct (date_ltb de ds); [intros _; reject_now | discriminate].
      * intros _. unfold percent_change, lift.
        rewrite HT, (assert_ticker_some _ _ _ _ HP),
          (assert_date_some _ _ _ Hs), (assert_date_none _ _ He).
        reject_now.
    + intros _. unfold percent_change, lift.
      rewrite HT, (assert_ticker_some _ _ _ _ HP), (assert_date_none _ _ Hs).
      reject_now.
  - intros _. unfold percent_change, lift.
    rewrite HT, (assert_ticker_none _ _ _ HP). reject_now.
Qed.

Lemma volume_change_rejects p t s e :
  resolves p t && dates_parse s e = false ->
  rejected (validation_if (answers p t)) (volume_change p t s e).
Proof.
  unfold resolves, dates_parse, answers.
  destruct (Ticker p t) as [x|[]] eqn:HT.
  { intros _. unfold volume_change, emit, lift. rewrite HT. reject_now. }
  destruct (regularMarketPrice p t) as [x|[price|]] eqn:HP.
  - intros _. unfold volume_change, emit, lift.
    rewrite HT, (assert_ticker_raise _ _ _ _ HP). reject_now.
  - destruct (strptime s) as [ds|] eqn:Hs.
    + destruct (strptime e) as [de|] eqn:He; [discriminate|].
      intros _. unfold volume_change, emit, lift.
      rewrite HT, (assert_ticker_some _ _ _ _ HP),
        (assert_date_some _ _ _ Hs), (assert_date_none _ _ He).
      reject_now.
    + intros _. unfold volume_change, emit, lift.
      rewrite HT, (assert_ticker_some _ _ _ _ HP), (assert_date_none _ _ Hs).
      reject_now.
  - intros _. unfold volume_change, emit, lift.
    rewrite HT, (assert_ticker_none _ _ _ HP). reject_now.
Qed.

Lemma profit_checks_rejects p st s e bt :
  resolves p st && is_str st && resolves p bt && is_str bt && range_ok s e
    = false ->
  rejected (validation_if (lookups_answered p st bt))
           (profit_checks p st s e bt).
Proof.
  unfold resolves, range_ok, profit_checks, lookups_answered.
  destruct (regularMarketPrice p st) as [x|[ps|]] eqn:HS;
    [intros _; rewrite (assert_ticker_raise _ _ _ _ HS); reject_now
    | rewrite (assert_ticker_some _ _ _ _ HS)
    | intros _; rewrite (assert_ticker_none _ _ _ HS); reject_now].
  destruct (is_str st); [|intros _; reject_now].
  destruct (regularMarketPrice p bt) as [x|[pb|]] eqn:HB;
    [intros _; rewrite (assert_ticker_raise _ _ _ _ HB); reject_now
    | rewrite (assert_ticker_some _ _ _ _ HB)
    | intros _; rewrite (assert_ticker_none _ _ _ HB); reject_now].
  destruct (is_str bt); [|intros _; reject_now].
  destruct (strptime s) as [ds|] eqn:Hs;
    [rewrite (assert_date_some _ _ _ Hs)
    | intros _; rewrite (assert_date_none _ _ Hs); reject_now].
  destruct (strptime e) as [de|] eqn:He;
    [rewrite (assert_date_some _ _ _ He)
    | intros _; rewrite (assert_date_none _ _ He); reject_now].
  rewrite (assert_range_spec _ _ _ _ Hs He).
  destruct (date_ltb de ds); [intros _; reject_now | discriminate].
Qed.

Lemma answers_lookups p st bt :
  answers p st && answers p bt = true -> lookups_answered p st bt = true.
Proof.
  unfold answers, lookups_answered.
  destruct (Ticker p st), (regularMarketPrice p st), (Ticker p bt),
    (regularMarketPrice p bt); done.
Qed.

Lemma profit_viz_rejects p st s e bt :
  resolves p st && is_str st && resolves p bt && is_str bt && range_ok s e
    = false ->
  rejected (validation_if (answers p st && answers p bt))
           (profit_viz p st s e bt).
Proof.
  intros H. unfold profit_viz, lift.
  destruct (Ticker p st) as [x|[]] eqn:HS.
  { exists (Foreign x). split; [reflexivity|]. split; [reflexivity|].
    unfold validation_if, answers. rewrite HS. discriminate. }
  destruct (Ticker p bt) as [x|[]] eqn:HB.
  { exists (Foreign x). split; [reflexivity|]. split; [reflexivity|].
    unfold validation_if, answers. rewrite HB, andb_false_r. discriminate. }
  cbn [propagate]. rewrite !bind_silent.
  apply rejected_bind, rejected_try_print.
  apply (rejected_weaken (validation_if (lookups_answered p st bt)));
    [|by apply profit_checks_rejects].
  intros err Hv Ha. by apply Hv, answers_lookups.
Qed.

(** C6, as the specification states it, fails: on a date that does not
    parse, the quote of the ticker has been asked of the provider before
    the error is raised. *)
Lemma validation_follows_lookup :
  outcome (percent_change Sample.yahoo (PyStr "AAPL")
                          "01-01-2020" "2020-02-01")
    = inl (ValueError msg_start)
  /\ trace (percent_change Sample.yahoo (PyStr "AAPL")
                           "01-01-2020" "2020-02-01")
     = [EvInfo (PyStr "AAPL")]
  /\ no_provider_call (trace (percent_change Sample.yahoo (PyStr "AAPL")
                                             "01-01-2020" "2020-02-01"))
     = false.
Proof. by vm_compute. Qed.

(** C6, amended.  A call of [percent_change] or [profit_viz] whose
    arguments fail the validation (a ticker without a price, a ticker of
    [profit_viz] that is no string, a date that does not parse, an end date
    before the start date), and a call of [volume_change] whose ticker has
    no price or whose dates do not parse, ends with an exception before any
    history is fetched; when the client has answered the lookups of the
    tickers, the exception is one that the validation raises. *)
Theorem validation_precedes_fetch op p t s e b :
  passes_validation op p t s e b = false ->
  exists err,
    outcome (run op p t s e b) = inl err
    /\ no_fetch (trace (run op p t s e b)) = true
    /\ (client_answers op p t b = true -> is_validation_error err = true).
Proof.
  intros H.
  change (rejected (validation_if (client_answers op p t b))
                   (run op p t s e b)).
  destruct op; cbn [run passes_validation client_answers] in *;
    apply rejected_fmap.
  - by apply percent_change_rejects.
  - by apply volume_change_rejects.
  - by apply profit_viz_rejects.
Qed.

Lemma validation_precedes_fetch_witness :
  exists err,
    outcome (run ProfitViz Sample.yahoo (PyStr "AAPL")
                 "2020-02-01" "2020-01-01" (PyStr "SPY")) = inl err
    /\ no_fetch (trace (run ProfitViz Sample.yahoo (PyStr "AAPL")
                            "2020-02-01" "2020-01-01" (PyStr "SPY"))) = true
    /\ (client_answers ProfitViz Sample.yahoo (PyStr "AAPL") (PyStr "SPY")
          = true ->
        is_validation_error err = true).
Proof.
  apply (validation_precedes_fetch ProfitViz Sample.yahoo (PyStr "AAPL")
           "2020-02-01" "2020-01-01" (PyStr "SPY")).
  reflexivity.
Defined.

(** ** The type check of [profit_viz] *)

(** The type of a ticker is looked at after its quote: the check is
    reached only by a value that has a price. *)
Lemma profit_viz_type_error_reached p st s e bt price :
  Ticker p st = inr tt -> Ticker p bt = inr tt ->
  regularMarketPrice p st = inr (Some price) ->
  is_str st = false ->
  profit_viz p st s e bt =
    ([EvInfo st; EvPrint msg_stock_type], inl (TypeError msg_stock_type)).
Proof.
  intros HS HB HP Hstr. unfold profit_viz, lift, profit_checks.
  rewrite HS, HB. cbn [propagate]. rewrite !bind_silent.
  by rewrite (assert_ticker_some _ _ _ _ HP), Hstr.
Qed.

Lemma profit_viz_unpriced p st s e bt :
  Ticker p st = inr tt -> Ticker p bt = inr tt ->
  regularMarketPrice p st = inr None ->
  profit_viz p st s e bt =
    ([EvInfo st; EvPrint msg_ticker], inl (NameError msg_ticker)).
Proof.
  intros HS HB HP. unfold profit_viz, lift, profit_checks.
  rewrite HS, HB. cbn [propagate]. rewrite !bind_silent.
  by rewrite (assert_ticker_none _ _ _ HP).
Qed.

(** For a stock ticker that is no string, the type error is the outcome
    only with a client that has built a handle for the value and returned
    a price for it. *)
Lemma profit_viz_type_error_only_priced p st s e bt :
  is_str st = false ->
  outcome (profit_viz p st s e bt) = inl (TypeError msg_stock_type) ->
  Ticker p st = inr tt
  /\ exists price, regularMarketPrice p st = inr (Some price).
Proof.
  intros Hstr. unfold profit_viz, lift, profit_checks.
  destruct (Ticker p st) as [x|[]] eqn:HS; [discriminate|].
  destruct (Ticker p bt) as [x|[]] eqn:HB; [discriminate|].
  cbn [propagate]. rewrite !bind_silent.
  destruct (regularMarketPrice p st) as [x|[price|]] eqn:HP.
  - rewrite (assert_ticker_raise _ _ _ _ HP).
    rewrite (bind_err _ _ [EvInfo st] (Foreign x) eq_refl).
    unfold try_except.
    destruct (existsb _ _); [unfold print_and_raise, emit, raise|];
      discriminate.
  - eauto.
  - rewrite (assert_ticker_none _ _ _ HP). discriminate.
Qed.

(** C8 on the code: with the number 123 as the stock ticker, [profit_viz]
    does not end with the type error.  The client whose handle constructor
    wants a string ends the call there; the client that takes any value
    finds no price for it, and the call ends with the ticker error.  With a
    string that resolves as the stock and [None] as the benchmark the call
    ends with the ticker error of the benchmark. *)
Theorem profit_viz_nonstring_ticker :
  outcome (profit_viz Sample.yahoo (PyInt 123) "2020-01-01" "2020-01-10"
                      (PyStr "SPY"))
    = inl (Foreign (Raised ["AttributeError"; "Exception"]
                           "object has no attribute 'upper'"))
  /\ outcome (profit_viz Sample.lenient (PyInt 123) "2020-01-01"
                         "2020-01-10" (PyStr "SPY"))
     = inl InvalidTickerError
  /\ outcome (profit_viz Sample.lenient (PyStr "AAPL") "2020-01-01"
                         "2020-01-10" PyNone)
     = inl (NameError msg_bench_ticker).
Proof. by vm_compute. Qed.

(** * Further properties of the code *)

(** ** [percent_change]: what the result depends on, zero and missing closes *)

Lemma rebased_lookup data d0 r0 i d r :
  data !! 0%nat = Some (d0, r0) -> data !! i = Some (d, r) ->
  rebased data !! i = Some (d, rebase_row r r0).
Proof.
  intros H0 Hi. destruct i as [|i].
  - rewrite H0 in Hi. injection Hi as <- <-. by apply rebased_lookup_first.
  - apply (rebased_lookup_later _ d0); [done|lia|done].
Qed.

Lemma drop_columns_same raw raw' :
  Forall2 (fun r r' => Date r = Date r' /\ Close r = Close r') raw raw' ->
  drop_columns raw = drop_columns raw'.
Proof.
  unfold drop_columns. intros H. f_equal.
  induction H as [|r r' raw raw' [HD HC] _ IH]; [reflexivity|].
  rewrite !fmap_cons. by rewrite HD, HC, IH.
Qed.

(** X1.  The series depends on the dates and the closes of the fetched
    table only: two clients that accept the ticker and whose tables have
    the same dates and closes give the same outcome, whatever the opening,
    high, low and adjusted prices and the volumes are. *)
Theorem percent_change_close_only p p' t s e ds de raw raw' :
  valid_ticker p t -> valid_ticker p' t ->
  strptime s = Some ds -> strptime e = Some de ->
  download p t s e = inr raw -> download p' t s e = inr raw' ->
  Forall2 (fun r r' => Date r = Date r' /\ Close r = Close r') raw raw' ->
  outcome (percent_change p t s e) = outcome (percent_change p' t s e).
Proof.
  intros Hv Hv' Hs He Hd Hd' Hsame.
  rewrite (percent_change_checked _ _ _ _ _ _ Hv Hs He).
  rewrite (percent_change_checked _ _ _ _ _ _ Hv' Hs He).
  rewrite Hd, Hd'. destruct (date_ltb de ds); [reflexivity|].
  pose proof (drop_columns_same _ _ Hsame) as Heq.
  cbn [outcome snd]. destruct Hsame; [reflexivity|]. by rewrite Heq.
Qed.

Lemma percent_change_close_only_witness :
  outcome (percent_change Sample.yahoo (PyStr "AAPL")
                          "2020-01-01" "2020-01-10")
  = outcome (percent_change Fixtures.other (PyStr "AAPL")
                            "2020-01-01" "2020-01-10").
Proof.
  apply (percent_change_close_only Sample.yahoo Fixtures.other (PyStr "AAPL")
           "2020-01-01" "2020-01-10" (mkdate 2020 1 1) (mkdate 2020 1 10)
           Sample.aapl Fixtures.aapl_other).
  - split; [reflexivity | eexists; reflexivity].
  - split; [reflexivity | eexists; reflexivity].
  - reflexivity.
  - reflexivity.
  - reflexivity.
  - reflexivity.
  - repeat constructor.
Defined.





Lemma rebase_zero_zero : ((0 - 0) / 0 * 100)%float = nan.
Proof. reflexivity. Qed.



Lemma rebase_nan_base c : ((c - nan) / nan * 100)%float = nan.
Proof.
  apply Prim2SF_inj. rewrite mul_spec, div_spec, sub_spec.
  replace (Prim2SF nan) with S754_nan by (vm_compute; reflexivity).
  by destruct (Prim2SF c).
Qed.

Lemma rebase_nan_cell c0 : ((nan - c0) / c0 * 100)%float = nan.
Proof.
  apply Prim2SF_inj. rewrite mul_spec, div_spec, sub_spec.
  replace (Prim2SF nan) with S754_nan by (vm_compute; reflexivity).
  by destruct (Prim2SF c0).
Qed.

(** X3.  A missing close (NaN) spreads and raises nothing: when the first
    close of a column is NaN, every entry of that column of the series is
    NaN; and a NaN close on any day makes the entry of that day NaN. *)
Theorem percent_change_nan p t s e ds de raw i r r0 j c c0 :
  valid_ticker p t ->
  strptime s = Some ds -> strptime e = Some de -> date_ltb de ds = false ->
  download p t s e = inr raw ->
  raw !! i = Some r -> raw !! 0%nat = Some r0 ->
  Close r0 !! j = Some c0 -> Close r !! j = Some c ->
  c0 = nan \/ c = nan ->
  exists f vals,
    outcome (percent_change p t s e) = inr f /\
    rows f !! i = Some (Date r, vals) /\
    vals !! j = Some nan.
Proof.
  intros Hv Hs He Hlt Hd Hr H0 Hc0 Hc Hnan.
  rewrite (percent_change_returns _ _ _ _ _ _ _ _ Hv Hs He Hlt Hd H0).
  eexists _, (rebase_row (Close r) (Close r0)).
  cbn [outcome snd]. split; [reflexivity|]. cbn [rows]. split.
  - apply (rebased_lookup _ (Date r0) (Close r0));
      by apply drop_columns_lookup.
  - rewrite (rebase_row_lookup _ _ _ _ _ Hc Hc0). f_equal.
    destruct Hnan as [-> | ->];
      [apply rebase_nan_base | apply rebase_nan_cell].
Qed.

Lemma percent_change_nan_witness :
  exists f vals,
    outcome (percent_change Fixtures.flaky (PyStr "GAP")
                            "2020-01-01" "2020-01-10") = inr f /\
    rows f !! 1%nat = Some (Sample.d2, vals) /\
    vals !! 0%nat = Some nan.
Proof.
  apply (percent_change_nan Fixtures.flaky (PyStr "GAP")
           "2020-01-01" "2020-01-10" (mkdate 2020 1 1) (mkdate 2020 1 10)
           Fixtures.gap 1 (Sample.bar Sample.d2 2%float 30)
           (Sample.bar Sample.d1 nan 10) 0 2%float nan).
  - split; [reflexivity | eexists; reflexivity].
  - reflexivity.
  - reflexivity.
  - reflexivity.
  - reflexivity.
  - reflexivity.
  - reflexivity.
  - reflexivity.
  - reflexivity.
  - left. reflexivity.
Defined.

(** ** [volume_change]: the range, the empty table, the switch *)

(** X4.  [volume_change] does not compare the two dates: with an end date
    before the start date, where [percent_change] raises the range error,
    it sends the fetch with the dates as given and its outcome is the one
    of a call on a valid range (never the range error; a labelled table
    with a row for every fetched row). *)
Theorem volume_change_reversed_range p t s e ds de :
  valid_ticker p t ->
  strptime s = Some ds -> strptime e = Some de -> date_ltb de ds = true ->
  outcome (percent_change p t s e) = inl InvalidDateRangeError
  /\ trace (volume_change p t s e)
     = [EvPdrOverride; EvInfo t; EvGetDataYahoo t s e]
  /\ outcome (volume_change p t s e) <> inl InvalidDateRangeError
  /\ (forall raw,
        get_data_yahoo p t s e = inr raw -> Forall volume_cells raw ->
        exists out,
          outcome (volume_change p t s e) = inr out
          /\ length out = length raw).
Proof.
  intros Hv Hs He Hlt.
  rewrite (percent_change_checked _ _ _ _ _ _ Hv Hs He), Hlt.
  rewrite (volume_change_checked _ _ _ _ _ _ Hv Hs He).
  cbn [outcome trace fst snd].
  split; [reflexivity|]. split; [reflexivity|]. split.
  - destruct (get_data_yahoo p t s e) as [err|raw]; [discriminate|].
    destruct (mapM volume_cell raw); discriminate.
  - intros raw -> Hcells.
    destruct (mapM volume_cell raw) as [df|] eqn:Hdf.
    + exists (volume_rows df). split; [reflexivity|].
      rewrite length_volume_rows. symmetry. by eapply length_mapM.
    + apply mapM_None_1, Exists_exists in Hdf as (r & Hin & Hnone).
      rewrite Forall_forall in Hcells.
      destruct (Hcells r Hin) as (v & Hvol & _).
      unfold volume_cell in Hnone. by rewrite Hvol in Hnone.
Qed.

Lemma volume_change_reversed_range_witness :
  outcome (percent_change Sample.yahoo (PyStr "AAPL")
                          "2020-02-01" "2020-01-01")
    = inl InvalidDateRangeError
  /\ trace (volume_change Sample.yahoo (PyStr "AAPL")
                          "2020-02-01" "2020-01-01")
     = [EvPdrOverride; EvInfo (PyStr "AAPL");
        EvGetDataYahoo (PyStr "AAPL") "2020-02-01" "2020-01-01"]
  /\ outcome (volume_change Sample.yahoo (PyStr "AAPL")
                            "2020-02-01" "2020-01-01")
     <> inl InvalidDateRangeError
  /\ (forall raw,
        get_data_yahoo Sample.yahoo (PyStr "AAPL") "2020-02-01" "2020-01-01"
          = inr raw ->
        Forall volume_cells raw ->
        exists out,
          outcome (volume_change Sample.yahoo (PyStr "AAPL")
                                 "2020-02-01" "2020-01-01") = inr out
          /\ length out = length raw).
Proof.
  apply (volume_change_reversed_range Sample.yahoo (PyStr "AAPL")
           "2020-02-01" "2020-01-01" (mkdate 2020 2 1) (mkdate 2020 1 1)).
  - split; [reflexivity | eexists; reflexivity].
  - reflexivity.
  - reflexivity.
  - reflexivity.
Defined.

(** X5.  On a fetch without rows [volume_change] returns the empty table
    and raises nothing, where [percent_change] raises [IndexError]. *)
Theorem volume_change_empty p t s e ds de :
  valid_ticker p t ->
  strptime s = Some ds -> strptime e = Some de ->
  get_data_yahoo p t s e = inr [] ->
  volume_change p t s e
  = ([EvPdrOverride; EvInfo t; EvGetDataYahoo t s e], inr []).
Proof.
  intros Hv Hs He Hg.
  by rewrite (volume_change_checked _ _ _ _ _ _ Hv Hs He), Hg.
Qed.

Lemma volume_change_empty_witness :
  volume_change Sample.yahoo (PyStr "NEWCO") "2020-01-01" "2020-01-10"
  = ([EvPdrOverride; EvInfo (PyStr "NEWCO");
      EvGetDataYahoo (PyStr "NEWCO") "2020-01-01" "2020-01-10"], inr []).
Proof.
  apply (volume_change_empty Sample.yahoo (PyStr "NEWCO")
           "2020-01-01" "2020-01-10" (mkdate 2020 1 1) (mkdate 2020 1 10)).
  - split; [reflexivity | eexists; reflexivity].
  - reflexivity.
  - reflexivity.
  - reflexivity.
Defined.

Lemma trace_emit_bind {A} ev (f : unit -> M A) :
  trace (emit ev ≫= f) = ev :: trace (f tt).
Proof. unfold emit, mbind, M_bind, trace. by destruct (f tt). Qed.

Lemma trace_bind_prefix {A B} (m : M A) (f : A -> M B) :
  exists rest, trace (m ≫= f) = trace m ++ rest.
Proof.
  destruct m as [t [err|a]].
  - exists []. cbn. by rewrite app_nil_r.
  - unfold mbind, M_bind, trace. destruct (f a) as [t' r]. by exists t'.
Qed.

Lemma trace_fmap {A B} (g : A -> B) (m : M A) : trace (g <$> m) = trace m.
Proof. by destruct m as [t [err|a]]. Qed.

Lemma trace_try_prefix {A} (m : M A) cls h :
  exists rest, trace (try_except m cls h) = trace m ++ rest.
Proof.
  destruct m as [t [err|a]]; unfold try_except.
  - destruct (existsb _ _).
    + destruct (h err) as [t' r]. by exists t'.
    + exists []. cbn. by rewrite app_nil_r.
  - exists []. cbn. by rewrite app_nil_r.
Qed.

(** X6.  Every call of [volume_change] and of [volume_viz], whatever its
    arguments and however it ends, begins by switching pandas_datareader
    to yfinance: the switch is made before the ticker is looked at and
    stays made when the call is rejected. *)
Theorem pdr_override_first p t s e :
  (exists rest, trace (volume_change p t s e) = EvPdrOverride :: rest)
  /\ (exists rest, trace (volume_viz p t s e) = EvPdrOverride :: rest).
Proof.
  assert (H : exists rest,
             trace (volume_change p t s e) = EvPdrOverride :: rest).
  { unfold volume_change. rewrite trace_emit_bind. eauto. }
  split; [exact H|]. destruct H as [rest H]. unfold volume_viz.
  destruct (trace_bind_prefix
              (try_except
                 ((Some : list volume_row -> option (list volume_row))
                    <$> volume_change p t s e)
                 ["AttributeError"]
                 (fun _ => mret (None : option (list volume_row))))
              (fun vdf =>
                 match vdf with
                 | None => raise (UnboundLocalError msg_unbound_vdf)
                 | Some vdf =>
                     mret ([Bar (vDate <$> loc_change vdf "Increase")
                                (vVolume <$> loc_change vdf "Increase") 0
                                "green" "Volume Increase";
                            Bar (vDate <$> loc_change vdf "Decrease")
                                (vVolume <$> loc_change vdf "Decrease") 0
                                "red" "Volume Decrease"] : figure)
                 end)) as [r1 H1].
  destruct (trace_try_prefix
              ((Some : list volume_row -> option (list volume_row))
                 <$> volume_change p t s e)
              ["AttributeError"]
              (fun _ => mret (None : option (list volume_row))))
    as [r2 H2].
  rewrite trace_fmap, H in H2. rewrite H2 in H1.
  eexists. etransitivity; [exact H1|]. reflexivity.
Qed.

(** ** [profit_viz]: after the checks *)

Lemma percent_change_success p t s e f :
  outcome (percent_change p t s e) = inr f ->
  percent_change p t s e = ([EvInfo t; EvDownload t s e], inr f).
Proof.
  intros H.
  destruct (percent_change_inv _ _ _ _ _ H)
    as (Hv & (ds & de & Hs & He & Hlt) & _).
  rewrite (percent_change_checked _ _ _ _ _ _ Hv Hs He), Hlt in H |- *.
  cbn [outcome snd] in H. by rewrite H.
Qed.

Lemma percent_change_fetch_raises p t s e ds de err :
  valid_ticker p t ->
  strptime s = Some ds -> strptime e = Some de -> date_ltb de ds = false ->
  download p t s e = inl err ->
  percent_change p t s e
  = ([EvInfo t; EvDownload t s e], inl (Foreign err)).
Proof.
  intros Hv Hs He Hlt Hd.
  by rewrite (percent_change_checked _ _ _ _ _ _ Hv Hs He), Hlt, Hd.
Qed.

(** What [profit_viz] does once its checks have passed. *)
Lemma profit_viz_checked p st s e bt ds de :
  valid_ticker p st -> valid_ticker p bt ->
  is_str st = true -> is_str bt = true ->
  strptime s = Some ds -> strptime e = Some de -> date_ltb de ds = false ->
  profit_viz p st s e bt =
    match percent_change p st s e with
    | (t1, inl err) =>
        ([EvInfo st; EvInfo bt] ++ t1,
         inl (if isinstance err "AttributeError"
              then UnboundLocalError msg_unbound else err))
    | (t1, inr fs) =>
        match percent_change p bt s e with
        | (t2, inl err) =>
            ([EvInfo st; EvInfo bt] ++ t1 ++ t2,
             inl (if isinstance err "AttributeError"
                  then UnboundLocalError msg_unbound else err))
        | (t2, inr fb) =>
            ([EvInfo st; EvInfo bt] ++ t1 ++ t2, inr (chart_of st bt fs fb))
        end
    end.
Proof.
  intros Hvs Hvb Hst Hbt Hs He Hlt. unfold profit_viz, lift, profit_table.
  rewrite (proj1 Hvs), (proj1 Hvb).
  rewrite (profit_checks_pass _ _ _ _ _ _ _ Hvs Hvb Hst Hbt Hs He Hlt).
  destruct (percent_change p st s e) as [t1 [err|fs]].
  - cbn. rewrite orb_false_r.
    destruct (isinstance err "AttributeError"); cbn; by rewrite ?app_nil_r.
  - destruct (percent_change p bt s e) as [t2 [err|fb]].
    + cbn. rewrite orb_false_r.
      destruct (isinstance err "AttributeError"); cbn;
        by rewrite ?app_nil_r.
    + cbn. by rewrite ?app_nil_r.
Qed.

(** X7.  When the client raises during the fetch of the stock, or during
    the fetch of the benchmark after the series of the stock was computed,
    [profit_viz] returns no chart: an [AttributeError] of the client is
    swallowed and the call ends with [UnboundLocalError] on [profit_df];
    any other exception of the client comes out as it is. *)
Theorem profit_viz_fetch_raises p st s e bt ds de err :
  valid_ticker p st -> valid_ticker p bt ->
  is_str st = true -> is_str bt = true ->
  strptime s = Some ds -> strptime e = Some de -> date_ltb de ds = false ->
  download p st s e = inl err
  \/ ((exists S, outcome (percent_change p st s e) = inr S)
      /\ download p bt s e = inl err) ->
  outcome (profit_viz p st s e bt)
  = inl (if string_in "AttributeError" (classes err)
         then UnboundLocalError msg_unbound else Foreign err).
Proof.
  intros Hvs Hvb Hst Hbt Hs He Hlt Hcase.
  rewrite (profit_viz_checked _ _ _ _ _ _ _ Hvs Hvb Hst Hbt Hs He Hlt).
  destruct Hcase as [Hd | [[S HS] Hd]].
  - by rewrite (percent_change_fetch_raises _ _ _ _ _ _ _ Hvs Hs He Hlt Hd).
  - rewrite (percent_change_success _ _ _ _ _ HS).
    by rewrite (percent_change_fetch_raises _ _ _ _ _ _ _ Hvb Hs He Hlt Hd).
Qed.

Lemma profit_viz_fetch_raises_witness :
  outcome (profit_viz Fixtures.flaky (PyStr "AAPL") "2020-01-01"
                      "2020-01-10" (PyStr "SPY"))
  = inl (if string_in "AttributeError" ["AttributeError"; "Exception"]
         then UnboundLocalError msg_unbound
         else Foreign (Raised ["AttributeError"; "Exception"]
                              "'NoneType' object has no attribute 'index'")).
Proof.
  apply (profit_viz_fetch_raises Fixtures.flaky (PyStr "AAPL") "2020-01-01"
           "2020-01-10" (PyStr "SPY") (mkdate 2020 1 1) (mkdate 2020 1 10)
           (Raised ["AttributeError"; "Exception"]
                   "'NoneType' object has no attribute 'index'")).
  - split; [reflexivity | eexists; reflexivity].
  - split; [reflexivity | eexists; reflexivity].
  - reflexivity.
  - reflexivity.
  - reflexivity.
  - reflexivity.
  - reflexivity.
  - right. split; [|reflexivity]. eexists. vm_compute. reflexivity.
Defined.

(** X8.  When the fetch of the stock has no rows, [profit_viz] ends with
    the [IndexError] of [percent_change], which no handler catches, and the
    benchmark is never fetched. *)
Theorem profit_viz_empty_stock p st s e bt ds de :
  valid_ticker p st -> valid_ticker p bt ->
  is_str st = true -> is_str bt = true ->
  strptime s = Some ds -> strptime e = Some de -> date_ltb de ds = false ->
  download p st s e = inr [] ->
  profit_viz p st s e bt
  = ([EvInfo st; EvInfo bt; EvInfo st; EvDownload st s e],
     inl (IndexError msg_iloc)).
Proof.
  intros Hvs Hvb Hst Hbt Hs He Hlt Hd.
  rewrite (profit_viz_checked _ _ _ _ _ _ _ Hvs Hvb Hst Hbt Hs He Hlt).
  by rewrite (percent_change_checked _ _ _ _ _ _ Hvs Hs He), Hlt, Hd.
Qed.

Lemma profit_viz_empty_stock_witness :
  profit_viz Sample.yahoo (PyStr "NEWCO") "2020-01-01" "2020-01-10"
             (PyStr "SPY")
  = ([EvInfo (PyStr "NEWCO"); EvInfo (PyStr "SPY"); EvInfo (PyStr "NEWCO");
      EvDownload (PyStr "NEWCO") "2020-01-01" "2020-01-10"],
     inl (IndexError msg_iloc)).
Proof.
  apply (profit_viz_empty_stock Sample.yahoo (PyStr "NEWCO") "2020-01-01"
           "2020-01-10" (PyStr "SPY") (mkdate 2020 1 1) (mkdate 2020 1 10)).
  - split; [reflexivity | eexists; reflexivity].
  - split; [reflexivity | eexists; reflexivity].
  - reflexivity.
  - reflexivity.
  - reflexivity.
  - reflexivity.
  - reflexivity.
  - reflexivity.
Defined.

(** X9.  A call of [profit_viz] that returns a chart has asked the provider
    for the quote of each ticker twice (once in its own checks, once in
    [percent_change]) and for each history once, in this order, and has
    printed nothing. *)
Theorem profit_viz_requests p st s e bt fs fb :
  is_str st = true -> is_str bt = true ->
  outcome (percent_change p st s e) = inr fs ->
  outcome (percent_change p bt s e) = inr fb ->
  trace (profit_viz p st s e bt)
  = [EvInfo st; EvInfo bt;
     EvInfo st; EvDownload st s e;
     EvInfo bt; EvDownload bt s e].
Proof.
  intros Hst Hbt HS HB.
  destruct (percent_change_inv _ _ _ _ _ HS)
    as (Hvs & (ds & de & Hs & He & Hlt) & _).
  destruct (percent_change_inv _ _ _ _ _ HB) as (Hvb & _ & _).
  rewrite (profit_viz_checked _ _ _ _ _ _ _ Hvs Hvb Hst Hbt Hs He Hlt).
  by rewrite (percent_change_success _ _ _ _ _ HS),
    (percent_change_success _ _ _ _ _ HB).
Qed.

Lemma profit_viz_requests_witness :
  trace (profit_viz Sample.yahoo (PyStr "AAPL") "2020-01-01" "2020-01-10"
                    (PyStr "SPY"))
  = [EvInfo (PyStr "AAPL"); EvInfo (PyStr "SPY");
     EvInfo (PyStr "AAPL");
     EvDownload (PyStr "AAPL") "2020-01-01" "2020-01-10";
     EvInfo (PyStr "SPY");
     EvDownload (PyStr "SPY") "2020-01-01" "2020-01-10"].
Proof.
  apply (profit_viz_requests Sample.yahoo (PyStr "AAPL") "2020-01-01"
           "2020-01-10" (PyStr "SPY") Sample.stock Sample.benchmark).
  - reflexivity.
  - reflexivity.
  - vm_compute. reflexivity.
  - vm_compute. reflexivity.
Defined.

Lemma validation_error_caught err :
  is_validation_error err = true ->
  existsb (isinstance err) ["TypeError"; "ValueError"; "NameError"] = true.
Proof. by destruct err. Qed.

(** The checks of [profit_viz] ask for one quote or for two and do nothing
    else that leaves a trace. *)
Lemma profit_checks_trace p st s e bt :
  trace (profit_checks p st s e bt) = [EvInfo st]
  \/ trace (profit_checks p st s e bt) = [EvInfo st; EvInfo bt].
Proof.
  unfold profit_checks.
  destruct (regularMarketPrice p st) as [x|[ps|]] eqn:HS;
    [rewrite (assert_ticker_raise _ _ _ _ HS); by left
    | rewrite (assert_ticker_some _ _ _ _ HS)
    | rewrite (assert_ticker_none _ _ _ HS); by left].
  destruct (is_str st); [|by left].
  destruct (regularMarketPrice p bt) as [x|[pb|]] eqn:HB;
    [rewrite (assert_ticker_raise _ _ _ _ HB); by right
    | rewrite (assert_ticker_some _ _ _ _ HB)
    | rewrite (assert_ticker_none _ _ _ HB); by right].
  destruct (is_str bt); [|by right].
  destruct (strptime s) as [ds|] eqn:Hs;
    [rewrite (assert_date_some _ _ _ Hs)
    | rewrite (assert_date_none _ _ Hs); by right].
  destruct (strptime e) as [de|] eqn:He;
    [rewrite (assert_date_some _ _ _ He)
    | rewrite (assert_date_none _ _ He); by right].
  rewrite (assert_range_spec _ _ _ _ Hs He).
  destruct (date_ltb de ds); by right.
Qed.

(** X10.  When the client has built both handles and answered both lookups
    and a check of [profit_viz] fails, the exception is a [NameError],
    [ValueError] or [TypeError] of the module, its message is printed once,
    as the last thing the call does, and the same exception is raised
    again; before the line printed there are the lookups only. *)
Theorem profit_viz_prints_error p st s e bt :
  Ticker p st = inr tt -> Ticker p bt = inr tt ->
  lookups_answered p st bt = true ->
  passes_validation ProfitViz p st s e bt = false ->
  exists err lookups,
    profit_viz p st s e bt = (lookups ++ [EvPrint (exn_msg err)], inl err)
    /\ is_validation_error err = true
    /\ (lookups = [EvInfo st] \/ lookups = [EvInfo st; EvInfo bt]).
Proof.
  intros HS HB Hans Hfail. cbn [passes_validation] in Hfail.
  destruct (profit_checks_rejects _ _ _ _ _ Hfail) as (err & Ho & _ & Hval).
  specialize (Hval Hans).
  exists err, (trace (profit_checks p st s e bt)).
  split; [|split; [done | apply profit_checks_trace]].
  unfold profit_viz, lift. rewrite HS, HB. cbn [propagate].
  rewrite !bind_silent.
  rewrite (M_eta (profit_checks p st s e bt)), Ho.
  unfold try_except. rewrite (validation_error_caught _ Hval).
  reflexivity.
Qed.

Lemma profit_viz_prints_error_witness :
  exists err lookups,
    profit_viz Sample.yahoo (PyStr "AAPL") "2020-01-01" "01-10-2020"
               (PyStr "SPY")
    = (lookups ++ [EvPrint (exn_msg err)], inl err)
    /\ is_validation_error err = true
    /\ (lookups = [EvInfo (PyStr "AAPL")]
        \/ lookups = [EvInfo (PyStr "AAPL"); EvInfo (PyStr "SPY")]).
Proof.
  apply (profit_viz_prints_error Sample.yahoo (PyStr "AAPL") "2020-01-01"
           "01-10-2020" (PyStr "SPY")).
  - reflexivity.
  - reflexivity.
  - reflexivity.
  - reflexivity.
Defined.

(** X11.  [profit_viz] returns a chart only when every check holds (both
    tickers are strings with a price, both dates parse, the end date is not
    before the start date) and [percent_change] returned a series for the
    stock and for the benchmark; the chart is then the one of these two
    series. *)
Theorem profit_viz_chart_inv p st s e bt c :
  outcome (profit_viz p st s e bt) = inr c ->
  passes_validation ProfitViz p st s e bt = true
  /\ exists fs fb,
       outcome (percent_change p st s e) = inr fs
       /\ outcome (percent_change p bt s e) = inr fb
       /\ c = chart_of st bt fs fb.
Proof.
  intros Hc.
  destruct (passes_validation ProfitViz p st s e bt) eqn:Hpass.
  2: { cbn [passes_validation] in Hpass.
       destruct (profit_viz_rejects _ _ _ _ _ Hpass) as (err & Ho & _).
       rewrite Ho in Hc. discriminate Hc. }
  split; [reflexivity|]. cbn [passes_validation] in Hpass.
  apply andb_true_iff in Hpass as [Hpass Hrange].
  apply andb_true_iff in Hpass as [Hpass Hbt].
  apply andb_true_iff in Hpass as [Hpass Hrb].
  apply andb_true_iff in Hpass as [Hrs Hst].
  assert (HTs : Ticker p st = inr tt).
  { destruct (Ticker p st) as [x|[]] eqn:HT; [|reflexivity].
    unfold profit_viz, lift in Hc. rewrite HT in Hc. discriminate Hc. }
  assert (HTb : Ticker p bt = inr tt).
  { destruct (Ticker p bt) as [x|[]] eqn:HT; [|reflexivity].
    unfold profit_viz, lift in Hc. rewrite HTs, HT in Hc. discriminate Hc. }
  assert (Hvs : valid_ticker p st).
  { split; [done|]. unfold resolves in Hrs.
    destruct (regularMarketPrice p st) as [x|[price|]]; try discriminate.
    eauto. }
  assert (Hvb : valid_ticker p bt).
  { split; [done|]. unfold resolves in Hrb.
    destruct (regularMarketPrice p bt) as [x|[price|]]; try discriminate.
    eauto. }
  unfold range_ok in Hrange.
  destruct (strptime s) as [ds|] eqn:Hs; [|discriminate].
  destruct (strptime e) as [de|] eqn:He; [|discriminate].
  apply negb_true_iff in Hrange.
  rewrite (profit_viz_checked _ _ _ _ _ _ _ Hvs Hvb Hst Hbt Hs He Hrange)
    in Hc.
  destruct (percent_change p st s e) as [t1 [err|fs]]; [discriminate|].
  destruct (percent_change p bt s e) as [t2 [err|fb]]; [discriminate|].
  injection Hc as <-. by exists fs, fb.
Qed.

Lemma profit_viz_chart_inv_witness :
  passes_validation ProfitViz Sample.yahoo (PyStr "AAPL") "2020-01-01"
                    "2020-01-10" (PyStr "SPY") = true
  /\ exists fs fb,
       outcome (percent_change Sample.yahoo (PyStr "AAPL") "2020-01-01"
                               "2020-01-10") = inr fs
       /\ outcome (percent_change Sample.yahoo (PyStr "SPY") "2020-01-01"
                                  "2020-01-10") = inr fb
       /\ chart_of (PyStr "AAPL") (PyStr "SPY") Sample.stock Sample.benchmark
          = chart_of (PyStr "AAPL") (PyStr "SPY") fs fb.
Proof.
  apply (profit_viz_chart_inv Sample.yahoo (PyStr "AAPL") "2020-01-01"
           "2020-01-10" (PyStr "SPY")
           (chart_of (PyStr "AAPL") (PyStr "SPY")
                     Sample.stock Sample.benchmark)).
  vm_compute. reflexivity.
Defined.

(** ** [volume_viz] *)

Lemma volume_viz_of_table p t s e out :
  outcome (volume_change p t s e) = inr out ->
  volume_viz p t s e = (trace (volume_change p t s e), inr (figure_of out)).
Proof.
  intros H. unfold volume_viz.
  rewrite (M_eta (volume_change p t s e)), H. cbn. by rewrite !app_nil_r.
Qed.

Lemma zip_fmap_same {A B C} (f : A -> B) (g : A -> C) (l : list A) :
  zip (f <$> l) (g <$> l) = (fun x => (f x, g x)) <$> l.
Proof. induction l as [|x l IH]; [done|]. cbn. by rewrite <- IH. Qed.

Lemma elem_of_bars_loc vdf lbl d v :
  (d, v) ∈ zip (vDate <$> loc_change vdf lbl) (vVolume <$> loc_change vdf lbl)
  <-> exists o, o ∈ vdf /\ Volume_Change o = lbl
                /\ vDate o = d /\ vVolume o = v.
Proof.
  rewrite zip_fmap_same, list_elem_of_fmap. unfold loc_change. split.
  - intros (o & [= -> ->] & Ho). apply list_elem_of_filter in Ho as [Hl Ho].
    apply String.eqb_eq in Hl. eauto.
  - intros (o & Ho & Hl & <- & <-). exists o. split; [done|].
    apply list_elem_of_filter. split; [|done]. by apply String.eqb_eq.
Qed.

Lemma volume_rows_first df o :
  volume_rows df !! 0%nat = Some o -> Volume_Change o = "nan".
Proof.
  intros Ho. apply volume_rows_lookup in Ho as [Hi Hc].
  rewrite classify_label_of, list_lookup_fmap in Hc.
  rewrite (diff_lookup_0 _ (vVolume o)) in Hc
    by (by rewrite list_lookup_fmap, Hi).
  by injection Hc as <-.
Qed.

Lemma volume_rows_next df i prev cur :
  int64_volume prev -> int64_volume cur ->
  volume_rows df !! i = Some prev -> volume_rows df !! S i = Some cur ->
  Volume_Change cur = label_of (Some (vVolume cur - vVolume prev)).
Proof.
  unfold int64_volume. intros Hbp Hbc Hprev Hcur.
  apply volume_rows_lookup in Hprev as [Hp _].
  apply volume_rows_lookup in Hcur as [Hc Hl].
  rewrite classify_label_of, list_lookup_fmap in Hl.
  rewrite (diff_lookup_S _ _ (vVolume prev) (vVolume cur)) in Hl
    by (by rewrite list_lookup_fmap, ?Hp, ?Hc).
  injection Hl as <-. by rewrite int64_wrap_small by lia.
Qed.

Lemma volume_change_table p t s e out :
  outcome (volume_change p t s e) = inr out ->
  exists df, out = volume_rows df.
Proof.
  intros Hout.
  destruct (volume_change_outcome p t s e)
    as [[f H] | [H | [H | [H | [df H]]]]];
    rewrite H in Hout; try discriminate.
  injection Hout as <-. by exists df.
Qed.

(** X12.  The bars of [volume_viz]: the figure has a green trace and then
    a red trace; a day has a green bar, as high as its volume, exactly when
    its volume is above the volume of the row before it, and a red bar
    exactly when it is below. *)
Theorem volume_viz_bars p t s e out :
  outcome (volume_change p t s e) = inr out ->
  Forall int64_volume out ->
  exists green red,
    outcome (volume_viz p t s e) = inr [green; red]
    /\ marker_color green = "green" /\ marker_color red = "red"
    /\ (forall d v,
          (d, v) ∈ bars green
          <-> exists i prev cur,
                out !! i = Some prev /\ out !! S i = Some cur
                /\ vDate cur = d /\ vVolume cur = v /\ vVolume prev < v)
    /\ (forall d v,
          (d, v) ∈ bars red
          <-> exists i prev cur,
                out !! i = Some prev /\ out !! S i = Some cur
                /\ vDate cur = d /\ vVolume cur = v /\ v < vVolume prev).
Proof.
  intros Hout Hb. rewrite (volume_viz_of_table _ _ _ _ _ Hout).
  destruct (volume_change_table _ _ _ _ _ Hout) as [df ->].
  eexists _, _. cbn [outcome snd figure_of].
  split; [reflexivity|]. split; [reflexivity|]. split; [reflexivity|].
  assert (Hrow : forall lbl d v,
    lbl <> "nan" ->
    (exists o, o ∈ volume_rows df /\ Volume_Change o = lbl
               /\ vDate o = d /\ vVolume o = v)
    <-> exists i prev cur,
          volume_rows df !! i = Some prev /\ volume_rows df !! S i = Some cur
          /\ vDate cur = d /\ vVolume cur = v
          /\ label_of (Some (v - vVolume prev)) = lbl).
  { intros lbl d v Hlbl. split.
    - intros (o & Ho & Hl & Hd & Hv).
      apply list_elem_of_lookup in Ho as [[|i] Hi].
      { apply volume_rows_first in Hi. congruence. }
      destruct (volume_rows df !! i) as [prev|] eqn:Hp.
      2: { apply lookup_ge_None in Hp. apply lookup_lt_Some in Hi. lia. }
      exists i, prev, o. repeat (split; [done|]).
      rewrite <- Hv, <- Hl. symmetry.
      apply (volume_rows_next df i); try done;
        by eapply Forall_lookup_1.
    - intros (i & prev & cur & Hp & Hc & Hd & Hv & Hl).
      exists cur. split; [by eapply list_elem_of_lookup_2|].
      split; [|done]. rewrite <- Hl, <- Hv.
      apply (volume_rows_next df i); try done;
        by eapply Forall_lookup_1. }
  split; intros d v; unfold bars; cbn [bar_x bar_y];
    rewrite elem_of_bars_loc, Hrow by discriminate;
    split; intros (i & prev & cur & Hp & Hc & Hd & Hv & Hl);
    exists i, prev, cur; repeat (split; [done|]);
    destruct (label_of_sign (v - vVolume prev)) as (HI & HD & _).
  - apply HI in Hl. lia.
  - apply HI. lia.
  - apply HD in Hl. lia.
  - apply HD. lia.
Qed.

Lemma volume_viz_bars_witness :
  exists green red,
    outcome (volume_viz Sample.yahoo (PyStr "AAPL")
                        "2020-01-01" "2020-01-10") = inr [green; red]
    /\ marker_color green = "green" /\ marker_color red = "red"
    /\ (forall d v,
          (d, v) ∈ bars green
          <-> exists i prev cur,
                volume_rows [(Sample.d1, 1000); (Sample.d2, 2000);
                             (Sample.d3, 2000)] !! i = Some prev
                /\ volume_rows [(Sample.d1, 1000); (Sample.d2, 2000);
                                (Sample.d3, 2000)] !! S i = Some cur
                /\ vDate cur = d /\ vVolume cur = v /\ vVolume prev < v)
    /\ (forall d v,
          (d, v) ∈ bars red
          <-> exists i prev cur,
                volume_rows [(Sample.d1, 1000); (Sample.d2, 2000);
                             (Sample.d3, 2000)] !! i = Some prev
                /\ volume_rows [(Sample.d1, 1000); (Sample.d2, 2000);
                                (Sample.d3, 2000)] !! S i = Some cur
                /\ vDate cur = d /\ vVolume cur = v /\ v < vVolume prev).
Proof.
  apply (volume_viz_bars Sample.yahoo (PyStr "AAPL")
           "2020-01-01" "2020-01-10"
           (volume_rows [(Sample.d1, 1000); (Sample.d2, 2000);
                         (Sample.d3, 2000)])).
  - reflexivity.
  - repeat constructor; unfold int64_volume; cbn; lia.
Defined.

Lemma length_loc_change_disjoint vdf a b :
  a <> b ->
  (length (loc_change vdf a) + length (loc_change vdf b) <= length vdf)%nat.
Proof.
  intros Hab. unfold loc_change.
  induction vdf as [|o vdf IH]; [done|].
  rewrite !filter_cons. cbn [length].
  destruct (decide (String.eqb (Volume_Change o) a = true)) as [Ha|Ha];
    destruct (decide (String.eqb (Volume_Change o) b = true)) as [Hb|Hb];
    cbn [length]; try lia.
  apply String.eqb_eq in Ha, Hb. congruence.
Qed.

(** X13.  The first fetched day is never drawn: the two traces of the
    figure have as many days as heights, and together fewer bars than the
    table of [volume_change] has rows (none when it has no row). *)
Theorem volume_viz_bar_count p t s e out :
  outcome (volume_change p t s e) = inr out ->
  exists green red,
    outcome (volume_viz p t s e) = inr [green; red]
    /\ length (bar_x green) = length (bar_y green)
    /\ length (bar_x red) = length (bar_y red)
    /\ (length (bar_x green) + length (bar_x red) <= length out - 1)%nat.
Proof.
  intros Hout. rewrite (volume_viz_of_table _ _ _ _ _ Hout).
  destruct (volume_change_table _ _ _ _ _ Hout) as [df ->].
  eexists _, _. cbn [outcome snd figure_of].
  split; [reflexivity|]. cbn [bar_x bar_y]. rewrite !length_fmap.
  split; [reflexivity|]. split; [reflexivity|].
  destruct (volume_rows df) as [|o rest] eqn:Hrows; [cbn; lia|].
  assert (Hnan : Volume_Change o = "nan").
  { apply (volume_rows_first df). by rewrite Hrows. }
  unfold loc_change. rewrite !filter_cons, Hnan. cbn [length].
  change (length (loc_change rest "Increase")
          + length (loc_change rest "Decrease") <= S (length rest) - 1)%nat.
  assert (Hne : "Increase" <> "Decrease") by discriminate.
  pose proof (length_loc_change_disjoint rest _ _ Hne). lia.
Qed.

Lemma volume_viz_bar_count_witness :
  exists green red,
    outcome (volume_viz Sample.yahoo (PyStr "SPY")
                        "2020-01-01" "2020-01-10") = inr [green; red]
    /\ length (bar_x green) = length (bar_y green)
    /\ length (bar_x red) = length (bar_y red)
    /\ (length (bar_x green) + length (bar_x red)
        <= length (volume_rows [(Sample.d2, 500%Z); (Sample.d3, 400%Z);
                                (Sample.d4, 450%Z)]) - 1)%nat.
Proof.
  apply (volume_viz_bar_count Sample.yahoo (PyStr "SPY")
           "2020-01-01" "2020-01-10"
           (volume_rows [(Sample.d2, 500); (Sample.d3, 400);
                         (Sample.d4, 450)])).
  reflexivity.
Defined.

(** X14.  When [volume_change] raises, [volume_viz] draws nothing: an
    [AttributeError] (the one of a client whose handle constructor is given
    a ticker that is no string, for one) is swallowed and the call ends
    with [UnboundLocalError] on [vdf]; every other exception comes out as
    it is.  Nothing more is asked of the provider. *)
Theorem volume_viz_raises p t s e err :
  outcome (volume_change p t s e) = inl err ->
  volume_viz p t s e
  = (trace (volume_change p t s e),
     inl (if isinstance err "AttributeError"
          then UnboundLocalError msg_unbound_vdf else err)).
Proof.
  intros H. unfold volume_viz.
  rewrite (M_eta (volume_change p t s e)), H. cbn. rewrite orb_false_r.
  destruct (isinstance err "AttributeError"); cbn; by rewrite ?app_nil_r.
Qed.

Lemma volume_viz_raises_witness :
  volume_viz Sample.yahoo (PyInt 123) "2020-01-01" "2020-01-10"
  = (trace (volume_change Sample.yahoo (PyInt 123)
                          "2020-01-01" "2020-01-10"),
     inl (if isinstance
               (Foreign (Raised ["AttributeError"; "Exception"]
                                "object has no attribute 'upper'"))
               "AttributeError"
          then UnboundLocalError msg_unbound_vdf
          else Foreign (Raised ["AttributeError"; "Exception"]
                               "object has no attribute 'upper'"))).
Proof.
  apply (volume_viz_raises Sample.yahoo (PyInt 123)
           "2020-01-01" "2020-01-10").
  reflexivity.
Defined.

(** ** The rows of the profit table *)

Lemma matches_unique r d :
  NoDup (fst <$> r) ->
  (length (filter (fun rr : date * row => date_eqb d (fst rr) = true) r)
   <= 1)%nat.
Proof.
  induction r as [|x r IH]; [cbn; lia|].
  rewrite fmap_cons, NoDup_cons. intros [Hx Hr]. rewrite filter_cons.
  destruct (decide (date_eqb d (fst x) = true)) as [Hd|Hd]; [|by apply IH].
  apply date_eqb_eq in Hd. cbn [length].
  destruct (filter (fun rr : date * row => date_eqb d (fst rr) = true) r)
    as [|y ys] eqn:Hf; [cbn; lia|].
  exfalso. apply Hx.
  assert (Hy : y ∈ filter (fun rr : date * row => date_eqb d (fst rr) = true) r)
    by (rewrite Hf; apply list_elem_of_here).
  apply list_elem_of_filter in Hy as [Hyd Hy].
  apply date_eqb_eq in Hyd. rewrite <- Hd, Hyd.
  by apply list_elem_of_fmap_2.
Qed.

Lemma merge_rows_dates_sublist l r :
  NoDup (fst <$> r) ->
  ((fun x : date * row * row => fst (fst x)) <$> merge_rows l r)
    `sublist_of` (fst <$> l).
Proof.
  intros Hr. unfold merge_rows.
  induction l as [|x l IH]; [constructor|].
  rewrite bind_cons, fmap_app, fmap_cons.
  change (fst x :: (fst <$> l)) with ([fst x] ++ (fst <$> l)).
  apply sublist_app; [|exact IH].
  pose proof (matches_unique r (fst x) Hr) as Hlen.
  destruct (filter (fun rr : date * row => date_eqb (fst x) (fst rr) = true) r)
    as [|y [|z zs]]; cbn in Hlen |- *.
  - apply sublist_nil_l.
  - reflexivity.
  - lia.
Qed.

(** X15.  When neither series has a date twice, the table of the chart
    keeps the days of the stock series in their order: its dates are a
    sublist of the dates of the stock series, no date is there twice, and
    it has at most as many rows as each of the two series. *)
Theorem profit_viz_table_order p st s e bt fs fb :
  is_str st = true -> is_str bt = true ->
  outcome (percent_change p st s e) = inr fs ->
  outcome (percent_change p bt s e) = inr fb ->
  NoDup (frame_dates fs) -> NoDup (frame_dates fb) ->
  exists c,
    outcome (profit_viz p st s e bt) = inr c
    /\ table_dates (chart_data c) `sublist_of` frame_dates fs
    /\ NoDup (table_dates (chart_data c))
    /\ (length (trows (chart_data c)) <= length (rows fs))%nat
    /\ (length (trows (chart_data c)) <= length (rows fb))%nat.
Proof.
  intros Hst Hbt HS HB Hds Hdb. exists (chart_of st bt fs fb).
  split; [by apply profit_viz_returns|].
  assert (Hrows : trows (chart_data (chart_of st bt fs fb))
                  = merge_rows (rows fs) (rows fb))
    by (unfold chart_of, rename_table, merge; cbn [chart_data];
        by destruct (String.eqb _ _)).
  assert (Hsub : table_dates (chart_data (chart_of st bt fs fb))
                   `sublist_of` frame_dates fs).
  { unfold table_dates. rewrite Hrows. by apply merge_rows_dates_sublist. }
  assert (Hnd : NoDup (table_dates (chart_data (chart_of st bt fs fb))))
    by exact (sublist_NoDup _ _ Hds Hsub).
  split; [done|]. split; [done|]. split.
  - apply sublist_length in Hsub. unfold table_dates, frame_dates in Hsub.
    by rewrite !length_fmap in Hsub.
  - assert (Hincl : table_dates (chart_data (chart_of st bt fs fb))
                      ⊆ frame_dates fb).
    { intros d Hd. unfold chart_of in Hd. cbn [chart_data] in Hd.
      by apply elem_of_merge_dates in Hd as [_ Hd]. }
    pose proof (submseteq_length _ _ (NoDup_submseteq _ _ Hnd Hincl)) as Hl.
    unfold table_dates, frame_dates in Hl. by rewrite !length_fmap in Hl.
Qed.

Lemma profit_viz_table_order_witness :
  exists c,
    outcome (profit_viz Sample.yahoo (PyStr "AAPL") "2020-01-01"
                        "2020-01-10" (PyStr "SPY")) = inr c
    /\ table_dates (chart_data c) `sublist_of` frame_dates Sample.stock
    /\ NoDup (table_dates (chart_data c))
    /\ (length (trows (chart_data c)) <= length (rows Sample.stock))%nat
    /\ (length (trows (chart_data c)) <= length (rows Sample.benchmark))%nat.
Proof.
  apply (profit_viz_table_order Sample.yahoo (PyStr "AAPL") "2020-01-01"
           "2020-01-10" (PyStr "SPY") Sample.stock Sample.benchmark).
  - reflexivity.
  - reflexivity.
  - vm_compute. reflexivity.
  - vm_compute. reflexivity.
  - change (NoDup [Sample.d1; Sample.d2; Sample.d3]).
    repeat (apply NoDup_cons; split;
            [rewrite list_elem_of_In; cbn; intuition discriminate|]).
    apply NoDup_nil_2.
  - change (NoDup [Sample.d2; Sample.d3; Sample.d4]).
    repeat (apply NoDup_cons; split;
            [rewrite list_elem_of_In; cbn; intuition discriminate|]).
    apply NoDup_nil_2.
Defined.

(** ** The index of the series *)

Lemma rebased_dates data : fst <$> rebased data = fst <$> data.
Proof.
  destruct data as [|[d0 r0] later]; [done|]. cbn [rebased].
  rewrite !fmap_cons. cbn [fst]. f_equal.
  rewrite <- list_fmap_compose. by apply list_fmap_ext.
Qed.

(** X16.  A series that [percent_change] returns comes from a fetched table
    with at least one row; it has the trading days of that table as its
    index, in the same order, one row for each, under the label Price
    Change Percentage(%). *)
Theorem percent_change_index p t s e f :
  outcome (percent_change p t s e) = inr f ->
  exists raw,
    download p t s e = inr raw
    /\ raw <> []
    /\ frame_dates f = Date <$> raw
    /\ length (rows f) = length raw
    /\ label f = pct_label.
Proof.
  intros H.
  destruct (percent_change_inv _ _ _ _ _ H)
    as (Hv & (ds & de & Hs & He & Hlt) & Hlabel).
  rewrite (percent_change_checked _ _ _ _ _ _ Hv Hs He), Hlt in H.
  cbn [outcome snd] in H.
  destruct (download p t s e) as [err|[|r0 raw]]; try discriminate.
  assert (Hf : f = Frame pct_label
                     (rebased (rows (drop_columns (r0 :: raw)))))
    by congruence.
  exists (r0 :: raw). split; [reflexivity|]. split; [discriminate|].
  rewrite Hf. unfold frame_dates. cbn [rows label].
  split; [|split; [|reflexivity]].
  - rewrite rebased_dates. unfold drop_columns. cbn [rows].
    rewrite <- list_fmap_compose. by apply list_fmap_ext.
  - rewrite length_rebased. unfold drop_columns. cbn [rows].
    by rewrite length_fmap.
Qed.

Lemma percent_change_index_witness :
  exists raw,
    download Sample.yahoo (PyStr "AAPL") "2020-01-01" "2020-01-10" = inr raw
    /\ raw <> []
    /\ frame_dates Sample.stock = Date <$> raw
    /\ length (rows Sample.stock) = length raw
    /\ label Sample.stock = pct_label.
Proof.
  apply (percent_change_index Sample.yahoo (PyStr "AAPL")
           "2020-01-01" "2020-01-10" Sample.stock).
  vm_compute. reflexivity.
Defined.
